(** * Audio uploader backend: controllers, routes and storage service

    A shallow embedding of the Express/Prisma backend
    (controllers, route validators, the S3 service, the error handler)
    together with the properties of the asset lifecycle.

    Conventions of the embedding:
    - a JS string is a [string] holding its UTF-8 encoding, the form in
      which it arrives in a request and leaves in a response; the white
      space of [JS.whiteSpace] and the lengths of [Validator.length] read
      that encoding; a possibly-undefined string is an [option string], and
      JS truthiness is written out ([JS.truthy]);
    - an [async] handler is a computation in the monad [M]: it threads the
      [World] (database tables, bucket, log of downstream calls) and may
      throw an [Err]; the [try { .. } catch (error) { next(error) }] frame of
      every controller is [handle], which hands the error to [errorHandler];
    - what the outside world decides during one request (the token drawn by
      [uuidv4()], the identifier the persistence layer assigns, the clock,
      whether the storage SDK call fails) is read from an [Env]. *)

From Stdlib Require Import ZArith String Ascii Bool Lia.
From stdpp Require Import base option list strings gmap sorting.

#[local] Set Warnings "-clear-no-such-hyp".

Local Open Scope Z_scope.
Local Open Scope stdpp_scope.

(** ** JavaScript values *)

Module JS.

(** [!!v] for a value that is a string or [undefined]. *)
Definition truthy (v : option string) : bool :=
  match v with
  | Some s => negb (String.eqb s "")
  | None => false
  end.

(** [v || null] *)
Definition orNull (v : option string) : option string :=
  if truthy v then v else None.

(** [a === b] on strings *)
Definition seq (a b : string) : bool := String.eqb a b.

(** [s.startsWith(p)] *)
Fixpoint startsWith (p s : string) : bool :=
  match p, s with
  | EmptyString, _ => true
  | String a p', String b s' => Ascii.eqb a b && startsWith p' s'
  | String _ _, EmptyString => false
  end.

(** [s.includes(p)] *)
Fixpoint includes (p s : string) : bool :=
  startsWith p s ||
  match s with
  | EmptyString => false
  | String _ s' => includes p s'
  end.

(** [list.includes(x)] on an array of strings *)
Definition arrayIncludes (l : list string) (x : string) : bool :=
  existsb (String.eqb x) l.

(** The string with the given bytes. *)
Definition bytes (l : list nat) : string :=
  fold_right (fun n s => String (ascii_of_nat n) s) EmptyString l.

(** A byte [10xxxxxx] continues a code point begun earlier. *)
Definition isContinuation (c : ascii) : bool :=
  match c with
  | Ascii _ _ _ _ _ _ b6 b7 => b7 && negb b6
  end.

(** The number of code points of a string. *)
Fixpoint codePoints (s : string) : nat :=
  match s with
  | EmptyString => 0%nat
  | String c s' => ((if isContinuation c then 0 else 1) + codePoints s')%nat
  end.

(** What the regular expression [\s] matches, and [String.prototype.trim]
    removes: the characters WhiteSpace and LineTerminator of the language,
    U+0009 to U+000D, U+0020, U+00A0, U+1680, U+2000 to U+200A, U+2028,
    U+2029, U+202F, U+205F, U+3000 and U+FEFF. *)
Definition whiteSpace : list string :=
  map bytes
    [ [9]; [10]; [11]; [12]; [13]; [32]; [194; 160]; [225; 154; 128];
      [226; 128; 128]; [226; 128; 129]; [226; 128; 130]; [226; 128; 131];
      [226; 128; 132]; [226; 128; 133]; [226; 128; 134]; [226; 128; 135];
      [226; 128; 136]; [226; 128; 137]; [226; 128; 138]; [226; 128; 168];
      [226; 128; 169]; [226; 128; 175]; [226; 129; 159]; [227; 128; 128];
      [239; 187; 191] ]%nat.

(** What is left of [s] after the prefix [p], if [s] starts with it. *)
Fixpoint stripPrefix (p s : string) : option string :=
  match p, s with
  | EmptyString, _ => Some s
  | String a p', String b s' => if Ascii.eqb a b then stripPrefix p' s' else None
  | String _ _, EmptyString => None
  end.

(** What is left of [s] after the first of [ps] that it starts with. *)
Fixpoint stripAny (ps : list string) (s : string) : option string :=
  match ps with
  | [] => None
  | p :: ps' =>
      match stripPrefix p s with
      | Some rest => Some rest
      | None => stripAny ps' s
      end
  end.

(** [s.replace(/^(p1|p2|..)+/, "")]; each round removes one character, so
    as many rounds as [s] has bytes are enough. *)
Fixpoint stripAll (ps : list string) (rounds : nat) (s : string) : string :=
  match rounds with
  | O => s
  | S n =>
      match stripAny ps s with
      | Some rest => stripAll ps n rest
      | None => s
      end
  end.

(** [s.replace(/^\s+/, "")] and [s.replace(/\s+$/, "")] *)
Definition trimStart (s : string) : string :=
  stripAll whiteSpace (String.length s) s.

Definition trimEnd (s : string) : string :=
  String.rev (stripAll (map String.rev whiteSpace) (String.length s) (String.rev s)).

End JS.

(** JSON bodies handed to [res.json]. *)
#[local] Set Warnings "-register-all".
Inductive Json : Type :=
| JNull
| JStr (s : string)
| JNum (n : Z)
| JArr (items : list Json)
| JObj (fields : list (string * Json)).

Definition jopt (v : option string) : Json :=
  match v with
  | Some s => JStr s
  | None => JNull
  end.

(** Does a key occur anywhere in a JSON value? *)
Fixpoint hasKey (k : string) (j : Json) : bool :=
  match j with
  | JArr items => existsb (hasKey k) items
  | JObj fields =>
      existsb (fun kv => String.eqb (fst kv) k || hasKey k (snd kv)) fields
  | _ => false
  end.

Record Response := mkResponse { status : nat; body : Json }.

Definition jerror (msg : string) : Json := JObj [("error", JStr msg)].

(** ** Errors and the global error handler *)

(** The properties of a thrown error object that [errorHandler] inspects. *)
Record Err := mkErr {
  isMulterError : bool;          (* err instanceof multer.MulterError *)
  name : string;                 (* err.name *)
  code : option string;          (* err.code *)
  message : string;              (* err.message *)
  hasMetadata : bool;            (* !!err.$metadata *)
  errStatus : option nat;        (* err.status *)
  stack : string                 (* err.stack *)
}.

Definition codeIs (e : Err) (c : string) : bool :=
  match code e with
  | Some c' => String.eqb c' c
  | None => false
  end.

(** [errorHandler(err, req, res, next)]; [development] is
    [process.env.NODE_ENV === "development"]. *)
Definition errorHandler (development : bool) (err : Err) : Response :=
  if isMulterError err then
    if codeIs err "LIMIT_FILE_SIZE" then
      mkResponse 400 (JObj [("error", JStr "File too large");
                            ("details", JStr "Maximum file size is 50MB")])
    else
      mkResponse 400 (JObj [("error", JStr "File upload error");
                            ("details", JStr (message err))])
  else if negb (String.eqb (message err) "")
          && JS.includes "Invalid file type" (message err) then
    mkResponse 400 (JObj [("error", JStr "Invalid file type");
                          ("details", JStr (message err))])
  else if String.eqb (name err) "ValidationError" then
    mkResponse 400 (JObj [("error", JStr "Validation Error");
                          ("details", JStr (message err))])
  else if String.eqb (name err) "UnauthorizedError"
          || String.eqb (name err) "JsonWebTokenError" then
    mkResponse 401 (JObj [("error", JStr "Unauthorized");
                          ("details", JStr "Invalid or expired token")])
  else if codeIs err "P2002" then
    mkResponse 409 (JObj [("error", JStr "Duplicate Entry");
                          ("details", JStr "A record with this value already exists")])
  else if codeIs err "P2025" then
    mkResponse 404 (JObj [("error", JStr "Not Found");
                          ("details", JStr "The requested resource was not found")])
  else if String.eqb (name err) "S3ServiceException" || hasMetadata err then
    mkResponse 500 (JObj [("error", JStr "Storage Error");
                          ("details", JStr "Failed to process file storage operation")])
  else
    mkResponse
      (match errStatus err with
       | Some (S n) => S n
       | _ => 500%nat
       end)
      (JObj (("error",
              JStr (if String.eqb (message err) "" then "Internal Server Error"
                    else message err))
             :: (if development then [("stack", JStr (stack err))] else []))).

(** ** Data model *)

(** A row of the [User] table. *)
Module User.
Record t := mk {
  id : string;
  username : string;
  password : string;             (* the bcrypt hash, never the plain text *)
  email : option string;
  createdAt : Z;
  updatedAt : Z
}.
End User.

(** A row of the [AudioFile] table. *)
Module AudioFile.
Record t := mk {
  id : string;
  title : string;
  description : option string;
  category : string;
  s3Key : string;
  s3Url : string;
  fileName : string;
  fileSize : Z;
  mimeType : string;
  userId : string;
  createdAt : Z;
  updatedAt : Z
}.

(** The serialisation of a row by [res.json(audioFile)]. *)
Definition toJson (a : t) : Json :=
  JObj [("id", JStr (id a));
        ("title", JStr (title a));
        ("description", jopt (description a));
        ("category", JStr (category a));
        ("s3Key", JStr (s3Key a));
        ("s3Url", JStr (s3Url a));
        ("fileName", JStr (fileName a));
        ("fileSize", JNum (fileSize a));
        ("mimeType", JStr (mimeType a));
        ("userId", JStr (userId a));
        ("createdAt", JNum (createdAt a));
        ("updatedAt", JNum (updatedAt a))].
End AudioFile.

(** An object held by the bucket. *)
Record S3Object := mkS3Object { objBody : string; objContentType : string }.

(** The downstream calls a request issues, in the order it issues them. *)
Inductive Call : Type :=
| S3PutObject (key : string)
| S3DeleteObject (key : string)
| DbAudioCreate (s3Key : string)
| DbAudioFindUnique (id : string)
| DbAudioFindFirst (fileName userId : string)
| DbAudioFindMany (userId : string) (category : option string)
| DbAudioDelete (id : string)
| DbUserCreate (username : string)
| DbUserFindUnique (key : string)
| DbUserUpdate (id : string)
| DbUserDelete (id : string).

(** Everything a request can read or change outside itself. *)
Record World := mkWorld {
  users : list User.t;
  audioFiles : list AudioFile.t;
  bucket : gmap string S3Object;
  calls : list Call
}.

(** What the environment decides during one request. *)
Record Env := mkEnv {
  uuidv4 : string;               (* the token drawn by uuidv4() *)
  dbUuid : string;               (* the identifier the persistence layer assigns *)
  now : Z;                       (* the clock, for createdAt / updatedAt *)
  salt : string;                 (* the salt drawn by bcrypt.hash *)
  s3Failure : option Err;        (* Some e: s3Client.send rejects with e *)
  AWS_S3_BUCKET : string;
  AWS_REGION : string;
  development : bool             (* NODE_ENV === "development" *)
}.

(** The identity [authMiddleware] attaches to the request as [req.user]. *)
Record AuthUser := mkAuthUser { userId : string; authUsername : string }.

(** ** The monad of asynchronous handlers *)

Inductive Outcome (A : Type) : Type :=
| Returned (a : A)
| Threw (e : Err).
Arguments Returned {A} a.
Arguments Threw {A} e.

Definition M (A : Type) : Type := World -> Outcome A * World.

Definition ret {A} (a : A) : M A := fun w => (Returned a, w).

Definition throw {A} (e : Err) : M A := fun w => (Threw e, w).

Definition bind {A B} (m : M A) (k : A -> M B) : M B :=
  fun w =>
    match m w with
    | (Returned a, w') => k a w'
    | (Threw e, w') => (Threw e, w')
    end.

Notation "x <~ m ;; k" := (bind m (fun x => k))
  (at level 100, m at next level, right associativity).
Notation "m ;;; k" := (bind m (fun _ => k))
  (at level 100, right associativity).

(** Record a downstream call. *)
Definition call (c : Call) : M unit :=
  fun w => (Returned tt,
            mkWorld (users w) (audioFiles w) (bucket w) (calls w ++ [c])).

(** [try { body } catch (error) { next(error) }]: the error reaches
    [errorHandler], the last middleware. *)
Definition handle (env : Env) (m : M Response) : World -> Response * World :=
  fun w =>
    match m w with
    | (Returned r, w') => (r, w')
    | (Threw e, w') => (errorHandler (development env) e, w')
    end.

Definition getWorld : M World := fun w => (Returned w, w).

Definition setUsers (us : list User.t) : M unit :=
  fun w => (Returned tt, mkWorld us (audioFiles w) (bucket w) (calls w)).

Definition setAudioFiles (afs : list AudioFile.t) : M unit :=
  fun w => (Returned tt, mkWorld (users w) afs (bucket w) (calls w)).

Definition setBucket (b : gmap string S3Object) : M unit :=
  fun w => (Returned tt, mkWorld (users w) (audioFiles w) b (calls w)).

(** ** Requests and route validation (express-validator) *)

(** A multer file object. *)
Record File := mkFile {
  originalname : string;
  mimetype : string;
  size : Z;
  buffer : string
}.

Inductive Location : Type := InBody | InParams | InQuery.

Record ValidationError := mkValidationError {
  location : Location;
  param : string;
  msg : string
}.

Module Req.
Record t := mk {
  user : AuthUser;                       (* req.user *)
  params : gmap string string;           (* req.params *)
  query : gmap string string;            (* req.query *)
  body : gmap string string;             (* req.body *)
  file : option File;                    (* req.file *)
  errors : list ValidationError          (* what validationResult(req) reads *)
}.

Definition get (l : Location) (f : string) (r : t) : option string :=
  match l with
  | InBody => body r !! f
  | InParams => params r !! f
  | InQuery => query r !! f
  end.

Definition set (l : Location) (f : string) (v : string) (r : t) : t :=
  match l with
  | InBody => mk (user r) (params r) (query r) (<[f:=v]> (body r)) (file r) (errors r)
  | InParams => mk (user r) (<[f:=v]> (params r)) (query r) (body r) (file r) (errors r)
  | InQuery => mk (user r) (params r) (<[f:=v]> (query r)) (body r) (file r) (errors r)
  end.

Definition addError (e : ValidationError) (r : t) : t :=
  mk (user r) (params r) (query r) (body r) (file r) (errors r ++ [e]).
End Req.

Module Validator.

(** [ltrim(str)] is [str.replace(/^\s+/g, "")]. *)
Definition trimStart (s : string) : string := JS.trimStart s.

(** [trim(str)] is [rtrim(ltrim(str))]: the white space of [\s] removed at
    both ends. *)
Definition trim (s : string) : string := JS.trimEnd (trimStart s).

(** The variation selectors U+FE0E and U+FE0F. *)
Definition presentationSelectors : list string :=
  map JS.bytes [ [239; 184; 142]; [239; 184; 143] ]%nat.

(** [str.match(/(\uFE0F|\uFE0E)/g).length] *)
Fixpoint presentationSequences (s : string) : nat :=
  match s with
  | EmptyString => 0%nat
  | String _ s' =>
      ((if existsb (fun p => JS.startsWith p s) presentationSelectors
        then 1 else 0) + presentationSequences s')%nat
  end.

(** The length [isLength] compares: [str.length] less the variation
    selectors and less one for each surrogate pair, that is the number of
    code points that are not variation selectors. *)
Definition length (s : string) : nat :=
  (JS.codePoints s - presentationSequences s)%nat.

(** [isLength({min, max})] *)
Definition isLength (min : nat) (max : option nat) (s : string) : bool :=
  (min <=? length s)%nat
  && match max with
     | Some m => (length s <=? m)%nat
     | None => true
     end.

(** The steps of a validation chain. *)
Inductive Step : Type :=
| Trim                                       (* .trim()      (sanitizer) *)
| IsLength (min : nat) (max : option nat)    (* .isLength()  *)
| IsIn (values : list string)                (* .isIn()      *)
| NotEmpty                                   (* .notEmpty()  *)
| Check (p : string -> bool).                (* .isEmail(), .isUUID() *)

(** [body(f)...], [param(f)...], [query(f)...] with its [.withMessage]. *)
Record Chain := mkChain {
  loc : Location;
  field : string;
  optional : bool;
  steps : list Step;
  withMessage : string
}.

(** A validator sees [toString(value)]: [undefined] reads as [""]. *)
Definition toString (v : option string) : string := default "" v.

Definition defined (v : option string) : bool :=
  match v with
  | Some _ => true
  | None => false
  end.

(** [reqValue === instance.value] *)
Definition sameValue (v v' : option string) : bool :=
  match v, v' with
  | Some a, Some b => String.eqb a b
  | None, None => true
  | _, _ => false
  end.

(** One step: the value after it and whether it passed. *)
Definition runStep (st : Step) (v : option string) : option string * bool :=
  match st with
  | Trim => (Some (trim (toString v)), true)
  | IsLength mn mx => (v, isLength mn mx (toString v))
  | IsIn values => (v, JS.arrayIncludes values (toString v))
  | NotEmpty => (v, negb (String.eqb (toString v) ""))
  | Check p => (v, p (toString v))
  end.

Fixpoint runSteps (sts : list Step) (v : option string) : option string * nat :=
  match sts with
  | [] => (v, 0%nat)
  | st :: rest =>
      let '(v1, ok) := runStep st v in
      let '(v2, failures) := runSteps rest v1 in
      (v2, if ok then failures else S failures)
  end.

(** Running a chain as middleware: a sanitized value is written back to the
    request, every failed validator leaves an error on the request, and
    the next middleware runs in either case. *)
Definition run (c : Chain) (r : Req.t) : Req.t :=
  let v := Req.get (loc c) (field c) r in
  if optional c && negb (defined v) then r
  else
    let '(v', failures) := runSteps (steps c) v in
    let r1 :=
      match v' with
      | Some s => if sameValue v v' then r else Req.set (loc c) (field c) s r
      | None => r
      end in
    Nat.iter failures
      (Req.addError (mkValidationError (loc c) (field c) (withMessage c))) r1.

Definition runAll (cs : list Chain) (r : Req.t) : Req.t :=
  fold_left (fun r c => run c r) cs r.

End Validator.

(** ** The persistence layer (Prisma client) *)

(** The [data] object of [prisma.audioFile.create]. *)
Module AudioFileData.
Record t := mk {
  title : string;
  description : option string;
  category : string;
  s3Key : string;
  s3Url : string;
  fileName : string;
  fileSize : Z;
  mimeType : string;
  userId : string
}.
End AudioFileData.

(** The [data] object of [prisma.user.update]: absent keys are [None]. *)
Module UserUpdate.
Record t := mk {
  username : option string;
  email : option string;
  password : option string
}.
End UserUpdate.

(** Modelled from the spec: the relational schema ([prisma/schema.prisma],
    not part of the sources read here).  Account: identifier unique,
    display name unique, contact address unique if present,
    creation/update timestamps.  Asset: identifier unique and
    server-assigned, storage key unique, owning account a required foreign
    key, creation/update timestamps; deleting an account cascades to its
    assets.  A violated constraint surfaces as the client's known request
    error with its code ([P2002] unique, [P2003] foreign key, [P2025]
    record not found), which is what [errorHandler] dispatches on. *)
Module Prisma.

Definition knownRequestError (c m : string) : Err :=
  mkErr false "PrismaClientKnownRequestError" (Some c) m false None "".

Definition P2002 : Err := knownRequestError "P2002" "Unique constraint failed".
Definition P2003 : Err := knownRequestError "P2003" "Foreign key constraint failed".
Definition P2025 : Err := knownRequestError "P2025" "Record to update or delete does not exist".

Definition sameEmail (a b : option string) : bool :=
  match a, b with
  | Some x, Some y => String.eqb x y
  | _, _ => false
  end.

(** The row a unique [id] selects, if any. *)
Definition audioById (id : string) (rows : list AudioFile.t) : option AudioFile.t :=
  List.find (fun a => String.eqb (AudioFile.id a) id) rows.

Definition userById (id : string) (rows : list User.t) : option User.t :=
  List.find (fun u => String.eqb (User.id u) id) rows.

(** [prisma.audioFile.findUnique({ where: { id } })] *)
Definition audioFile_findUnique (id : string) : M (option AudioFile.t) :=
  call (DbAudioFindUnique id) ;;;
  w <~ getWorld ;;
  ret (audioById id (audioFiles w)).

(** [prisma.audioFile.findFirst({ where: { fileName, userId } })] *)
Definition audioFile_findFirst (fileName userId : string) : M (option AudioFile.t) :=
  call (DbAudioFindFirst fileName userId) ;;;
  w <~ getWorld ;;
  ret (List.find (fun a => String.eqb (AudioFile.fileName a) fileName
                           && String.eqb (AudioFile.userId a) userId)
                 (audioFiles w)).

(** The [where] object of the listing: [userId] always, [category] when set. *)
Definition matchesWhere (userId : string) (category : option string)
           (a : AudioFile.t) : bool :=
  String.eqb (AudioFile.userId a) userId
  && match category with
     | Some c => String.eqb (AudioFile.category a) c
     | None => true
     end.

(** [orderBy: { createdAt: "desc" }] *)
Definition newerFirst (a b : AudioFile.t) : Prop :=
  AudioFile.createdAt b <= AudioFile.createdAt a.

#[global] Instance newerFirst_dec : RelDecision newerFirst.
Proof. intros a b. unfold newerFirst. apply _. Defined.

(** [prisma.audioFile.findMany({ where, orderBy: { createdAt: "desc" } })] *)
Definition audioFile_findMany (userId : string) (category : option string)
  : M (list AudioFile.t) :=
  call (DbAudioFindMany userId category) ;;;
  w <~ getWorld ;;
  ret (merge_sort newerFirst
         (List.filter (matchesWhere userId category) (audioFiles w))).

(** [prisma.audioFile.create({ data })] *)
Definition audioFile_create (env : Env) (d : AudioFileData.t) : M AudioFile.t :=
  call (DbAudioCreate (AudioFileData.s3Key d)) ;;;
  w <~ getWorld ;;
  if existsb (fun a => String.eqb (AudioFile.id a) (dbUuid env)
                       || String.eqb (AudioFile.s3Key a) (AudioFileData.s3Key d))
             (audioFiles w)
  then throw P2002
  else if negb (existsb (fun u => String.eqb (User.id u) (AudioFileData.userId d))
                        (users w))
  then throw P2003
  else
    let row :=
      AudioFile.mk (dbUuid env)
        (AudioFileData.title d) (AudioFileData.description d)
        (AudioFileData.category d) (AudioFileData.s3Key d)
        (AudioFileData.s3Url d) (AudioFileData.fileName d)
        (AudioFileData.fileSize d) (AudioFileData.mimeType d)
        (AudioFileData.userId d) (now env) (now env) in
    setAudioFiles (audioFiles w ++ [row]) ;;;
    ret row.

(** [prisma.audioFile.delete({ where: { id } })] *)
Definition audioFile_delete (id : string) : M unit :=
  call (DbAudioDelete id) ;;;
  w <~ getWorld ;;
  if existsb (fun a => String.eqb (AudioFile.id a) id) (audioFiles w)
  then setAudioFiles
         (List.filter (fun a => negb (String.eqb (AudioFile.id a) id)) (audioFiles w))
  else throw P2025.

(** [prisma.user.findUnique({ where: { username } })] *)
Definition user_findUnique_username (username : string) : M (option User.t) :=
  call (DbUserFindUnique username) ;;;
  w <~ getWorld ;;
  ret (List.find (fun u => String.eqb (User.username u) username) (users w)).

(** [prisma.user.findUnique({ where: { id } })] *)
Definition user_findUnique_id (id : string) : M (option User.t) :=
  call (DbUserFindUnique id) ;;;
  w <~ getWorld ;;
  ret (userById id (users w)).

(** [prisma.user.create({ data: { username, password, email } })] *)
Definition user_create (env : Env) (username password : string)
           (email : option string) : M User.t :=
  call (DbUserCreate username) ;;;
  w <~ getWorld ;;
  if existsb (fun u => String.eqb (User.id u) (dbUuid env)
                       || String.eqb (User.username u) username
                       || sameEmail (User.email u) email)
             (users w)
  then throw P2002
  else
    let row := User.mk (dbUuid env) username password email (now env) (now env) in
    setUsers (users w ++ [row]) ;;;
    ret row.

(** The row after [data] is applied: only the keys present in [data]. *)
Definition applyUpdate (env : Env) (d : UserUpdate.t) (u : User.t) : User.t :=
  User.mk (User.id u)
    (default (User.username u) (UserUpdate.username d))
    (default (User.password u) (UserUpdate.password d))
    (match UserUpdate.email d with
     | Some e => Some e
     | None => User.email u
     end)
    (User.createdAt u)
    (now env).

(** [prisma.user.update({ where: { id }, data })] *)
Definition user_update (env : Env) (id : string) (d : UserUpdate.t) : M User.t :=
  call (DbUserUpdate id) ;;;
  w <~ getWorld ;;
  match userById id (users w) with
  | None => throw P2025
  | Some u =>
      let u' := applyUpdate env d u in
      if existsb (fun o => negb (String.eqb (User.id o) id)
                           && (match UserUpdate.username d with
                               | Some n => String.eqb (User.username o) n
                               | None => false
                               end
                               || sameEmail (User.email o) (UserUpdate.email d)))
                 (users w)
      then throw P2002
      else
        setUsers (map (fun o => if String.eqb (User.id o) id
                                then applyUpdate env d o else o)
                      (users w)) ;;;
        ret u'
  end.

(** [prisma.user.delete({ where: { id } })], with the cascade. *)
Definition user_delete (id : string) : M unit :=
  call (DbUserDelete id) ;;;
  w <~ getWorld ;;
  if existsb (fun u => String.eqb (User.id u) id) (users w)
  then
    setUsers (List.filter (fun u => negb (String.eqb (User.id u) id)) (users w)) ;;;
    setAudioFiles
      (List.filter (fun a => negb (String.eqb (AudioFile.userId a) id)) (audioFiles w))
  else throw P2025.

(** The [select] object of a user query. *)
Record Select := mkSelect {
  sel_id : bool;
  sel_username : bool;
  sel_password : bool;
  sel_email : bool;
  sel_createdAt : bool;
  sel_updatedAt : bool
}.

(** The object a query with [select] resolves to, as JSON. *)
Definition selected (s : Select) (u : User.t) : Json :=
  JObj ((if sel_id s then [("id", JStr (User.id u))] else [])
        ++ (if sel_username s then [("username", JStr (User.username u))] else [])
        ++ (if sel_password s then [("password", JStr (User.password u))] else [])
        ++ (if sel_email s then [("email", jopt (User.email u))] else [])
        ++ (if sel_createdAt s then [("createdAt", JNum (User.createdAt u))] else [])
        ++ (if sel_updatedAt s then [("updatedAt", JNum (User.updatedAt u))] else [])).

End Prisma.

(** ** The storage service (S3) *)

Module s3Service.

(** [await s3Client.send(command)]: the call is issued; it either rejects
    with the error the environment holds, or takes effect on the bucket. *)
Definition send (env : Env) (c : Call)
           (effect : gmap string S3Object -> gmap string S3Object) : M unit :=
  call c ;;;
  match s3Failure env with
  | Some e => throw e
  | None => w <~ getWorld ;; setBucket (effect (bucket w))
  end.

Record S3Result := mkS3Result { key : string; url : string }.

(** The template literal [`audio/${userId}/${uuidv4()}-${file.originalname}`],
    with the token made explicit. *)
Definition objectKey (userId token originalname : string) : string :=
  "audio/" +:+ userId +:+ "/" +:+ token +:+ "-" +:+ originalname.

(** [`https://${AWS_S3_BUCKET}.s3.${AWS_REGION}.amazonaws.com/${key}`] *)
Definition objectUrl (env : Env) (key : string) : string :=
  "https://" +:+ AWS_S3_BUCKET env +:+ ".s3." +:+ AWS_REGION env
  +:+ ".amazonaws.com/" +:+ key.

Definition uploadToS3 (env : Env) (file : File) (userId : string) : M S3Result :=
  let key := objectKey userId (uuidv4 env) (originalname file) in
  send env (S3PutObject key)
       (insert key (mkS3Object (buffer file) (mimetype file))) ;;;
  ret (mkS3Result key (objectUrl env key)).

Definition deleteFromS3 (env : Env) (key : string) : M unit :=
  send env (S3DeleteObject key) (delete key).

Section Presign.
(** [getSignedUrl] of the SDK's request presigner: bucket, key, validity. *)
Variable getSignedUrl : string -> string -> Z -> string.

(** The presigner signs the [GetObjectCommand] locally: nothing is sent to
    the storage service, so its failures cannot reach this function. *)
Definition getPresignedUrl (env : Env) (key : string) (expiresIn : Z) : M string :=
  ret (getSignedUrl (AWS_S3_BUCKET env) key expiresIn).
End Presign.

End s3Service.

(** ** Upload middleware (multer) *)

Module multerConfig.

Definition allowedMimeTypes : list string :=
  ["audio/avi"; "audio/mp4"; "audio/mpeg"].

Definition fileSizeLimit : Z := 50 * 1024 * 1024.

Definition invalidFileType : Err :=
  mkErr false "Error" None "Invalid file type. Only audio files are allowed."
        false None "".

Definition limitFileSize : Err :=
  mkErr true "MulterError" (Some "LIMIT_FILE_SIZE") "File too large" false None "".

(** [fileFilter]: [None] accepts the file, [Some e] rejects it with [e]. *)
Definition fileFilter (file : File) : option Err :=
  if JS.arrayIncludes allowedMimeTypes (mimetype file) then None
  else Some invalidFileType.

(** [upload.single("audio")]: the filter runs on the file part's header,
    the size limit while its bytes are read. The reader of the multipart
    body (busboy 1.x under multer 1.4.5-lts) stops a part once [fileSize]
    bytes have been read, so a file of exactly the limit is refused too. *)
Definition single (r : Req.t) : Err + Req.t :=
  match Req.file r with
  | None => inr r
  | Some f =>
      match fileFilter f with
      | Some e => inl e
      | None => if Z.leb fileSizeLimit (size f) then inl limitFileSize else inr r
      end
  end.

End multerConfig.

(** ** Controllers *)

Definition locationName (l : Location) : string :=
  match l with
  | InBody => "body"
  | InParams => "params"
  | InQuery => "query"
  end.

(** One entry of [errors.array()]:
    [{ type: "field", value, msg, path, location }]; an [undefined] value
    leaves no key in the JSON text. The chains of the routes that answer
    with this array hold no sanitizer, so the value a validator saw is the
    one the request holds. *)
Definition errorEntry (req : Req.t) (e : ValidationError) : Json :=
  JObj ([("type", JStr "field")]
        ++ match Req.get (location e) (param e) req with
           | Some v => [("value", JStr v)]
           | None => []
           end
        ++ [("msg", JStr (msg e));
            ("path", JStr (param e));
            ("location", JStr (locationName (location e)))]).

(** [res.status(400).json({ errors: errors.array() })] *)
Definition validationFailed (req : Req.t) : Response :=
  mkResponse 400 (JObj [("errors", JArr (map (errorEntry req) (Req.errors req)))]).

(** [errors.isEmpty()] *)
Definition isEmpty (errs : list ValidationError) : bool :=
  match errs with
  | [] => true
  | _ :: _ => false
  end.

Module audioController.

Definition uploadAudio (env : Env) (req : Req.t) : M Response :=
  match Req.file req with
  | None => ret (mkResponse 400 (jerror "No audio file provided"))
  | Some file =>
      let title := Req.body req !! "title" in
      let description := Req.body req !! "description" in
      let category := Req.body req !! "category" in
      if negb (JS.truthy title) || negb (JS.truthy category) then
        ret (mkResponse 400 (jerror "Title and category are required"))
      else
        s3Result <~ s3Service.uploadToS3 env file (userId (Req.user req)) ;;
        audioFile <~ Prisma.audioFile_create env
          (AudioFileData.mk
             (default "" title)
             (JS.orNull description)
             (default "" category)
             (s3Service.key s3Result)
             (s3Service.url s3Result)
             (originalname file)
             (size file)
             (mimetype file)
             (userId (Req.user req))) ;;
        ret (mkResponse 201 (AudioFile.toJson audioFile))
  end.

Definition getUserAudioFiles (req : Req.t) : M Response :=
  let category := Req.query req !! "category" in
  let where_category := if JS.truthy category then category else None in
  audioFiles <~ Prisma.audioFile_findMany (userId (Req.user req)) where_category ;;
  ret (mkResponse 200 (JArr (map AudioFile.toJson audioFiles))).

Definition getAudioFile (req : Req.t) : M Response :=
  let id := default "" (Req.params req !! "id") in
  audioFile <~ Prisma.audioFile_findUnique id ;;
  match audioFile with
  | None => ret (mkResponse 404 (jerror "Audio file not found"))
  | Some audioFile =>
      if negb (JS.seq (AudioFile.userId audioFile) (userId (Req.user req))) then
        ret (mkResponse 403 (jerror "Forbidden"))
      else
        ret (mkResponse 200 (AudioFile.toJson audioFile))
  end.

Definition getAudioFileByName (req : Req.t) : M Response :=
  let fileName := default "" (Req.params req !! "fileName") in
  let userId := default "" (Req.params req !! "userId") in
  audioFile <~ Prisma.audioFile_findFirst fileName userId ;;
  match audioFile with
  | Some audioFile =>
      ret (mkResponse 200
             (JObj [("message", JStr "This audio file was uploaded previously. Please proceed if you want to re-upload it.");
                    ("audioFile", AudioFile.toJson audioFile)]))
  | None =>
      ret (mkResponse 200
             (JObj [("message", JStr "Audio file not found, proceed with upload")]))
  end.

Section Playback.
Variable getSignedUrl : string -> string -> Z -> string.

Definition getPlaybackUrl (env : Env) (req : Req.t) : M Response :=
  let id := default "" (Req.params req !! "id") in
  audioFile <~ Prisma.audioFile_findUnique id ;;
  match audioFile with
  | None => ret (mkResponse 404 (jerror "Audio file not found"))
  | Some audioFile =>
      if negb (JS.seq (AudioFile.userId audioFile) (userId (Req.user req))) then
        ret (mkResponse 403 (jerror "Forbidden"))
      else
        presignedUrl <~ s3Service.getPresignedUrl getSignedUrl env
                          (AudioFile.s3Key audioFile) 3600 ;;
        ret (mkResponse 200 (JObj [("url", JStr presignedUrl)]))
  end.
End Playback.

Definition deleteAudio (env : Env) (req : Req.t) : M Response :=
  let id := default "" (Req.params req !! "id") in
  audioFile <~ Prisma.audioFile_findUnique id ;;
  match audioFile with
  | None => ret (mkResponse 404 (jerror "Audio file not found"))
  | Some audioFile =>
      if negb (JS.seq (AudioFile.userId audioFile) (userId (Req.user req))) then
        ret (mkResponse 403 (jerror "Forbidden"))
      else
        s3Service.deleteFromS3 env (AudioFile.s3Key audioFile) ;;;
        Prisma.audioFile_delete id ;;;
        ret (mkResponse 200 (JObj [("message", JStr "Audio file deleted successfully")]))
  end.

End audioController.

(** The password-hashing and token-signing primitives are external:
    [bcrypt_hash password salt] is [bcrypt.hash(password, 10)] with the salt
    it draws, [bcrypt_compare password hash] is [bcrypt.compare], and
    [jwt_sign userId username iat] is
    [jwt.sign({ userId, username }, JWT_SECRET, { expiresIn: "24h" })]. *)
Module authController.
Section Crypto.
Variable bcrypt_hash : string -> string -> string.
Variable bcrypt_compare : string -> string -> bool.
Variable jwt_sign : string -> string -> Z -> string.

(** [{ token, user: { id, username, email } }] *)
Definition session (token : string) (user : User.t) : Json :=
  JObj [("token", JStr token);
        ("user", JObj [("id", JStr (User.id user));
                       ("username", JStr (User.username user));
                       ("email", jopt (User.email user))])].

Definition login (env : Env) (req : Req.t) : M Response :=
  if negb (isEmpty (Req.errors req)) then
    ret (validationFailed req)
  else
    let username := default "" (Req.body req !! "username") in
    let password := default "" (Req.body req !! "password") in
    user <~ Prisma.user_findUnique_username username ;;
    match user with
    | None => ret (mkResponse 401 (jerror "Invalid credentials"))
    | Some user =>
        if negb (bcrypt_compare password (User.password user)) then
          ret (mkResponse 401 (jerror "Invalid credentials"))
        else
          let token := jwt_sign (User.id user) (User.username user) (now env) in
          ret (mkResponse 200 (session token user))
    end.

Definition register (env : Env) (req : Req.t) : M Response :=
  if negb (isEmpty (Req.errors req)) then
    ret (validationFailed req)
  else
    let username := default "" (Req.body req !! "username") in
    let password := default "" (Req.body req !! "password") in
    let email := Req.body req !! "email" in
    let hashedPassword := bcrypt_hash password (salt env) in
    user <~ Prisma.user_create env username hashedPassword (JS.orNull email) ;;
    let token := jwt_sign (User.id user) (User.username user) (now env) in
    ret (mkResponse 201 (session token user)).
End Crypto.
End authController.

Module userController.
Section Crypto.
Variable bcrypt_hash : string -> string -> string.

Definition getCurrentUser (req : Req.t) : M Response :=
  user <~ Prisma.user_findUnique_id (userId (Req.user req)) ;;
  match user with
  | None => ret (mkResponse 404 (jerror "User not found"))
  | Some user =>
      ret (mkResponse 200
             (Prisma.selected (Prisma.mkSelect true true false true true true) user))
  end.

(** The [updateData] object built from the request body. *)
Definition updateData (env : Env) (req : Req.t) : UserUpdate.t :=
  let username := Req.body req !! "username" in
  let email := Req.body req !! "email" in
  let password := Req.body req !! "password" in
  UserUpdate.mk
    (if JS.truthy username then username else None)
    (if JS.truthy email then email else None)
    (if JS.truthy password
     then Some (bcrypt_hash (default "" password) (salt env))
     else None).

Definition updateUser (env : Env) (req : Req.t) : M Response :=
  if negb (isEmpty (Req.errors req)) then
    ret (validationFailed req)
  else
    let id := default "" (Req.params req !! "id") in
    if negb (JS.seq (userId (Req.user req)) id) then
      ret (mkResponse 403 (jerror "Forbidden"))
    else
      user <~ Prisma.user_update env id (updateData env req) ;;
      ret (mkResponse 200
             (Prisma.selected (Prisma.mkSelect true true false true false true) user)).

Definition deleteUser (req : Req.t) : M Response :=
  let id := default "" (Req.params req !! "id") in
  if negb (JS.seq (userId (Req.user req)) id) then
    ret (mkResponse 403 (jerror "Forbidden"))
  else
    Prisma.user_delete id ;;;
    ret (mkResponse 200 (JObj [("message", JStr "User deleted successfully")])).
End Crypto.
End userController.

(** ** Routes

    Every route below except login and register is mounted behind
    [authMiddleware]; a request reaching them carries the decoded identity
    in [Req.user].  A route runs its validation chains, then its controller
    inside the controller's own [try]/[catch]. *)

Module audioRoutes.

Definition categories : list string :=
  ["Music"; "Podcast"; "Audiobook"; "Sound Effect"; "Voice Recording"; "Other"].

Definition uploadChains : list Validator.Chain :=
  [Validator.mkChain InBody "title" false
     [Validator.Trim; Validator.IsLength 1 (Some 200%nat)]
     "Title is required and must be less than 200 characters";
   Validator.mkChain InBody "description" true
     [Validator.Trim; Validator.IsLength 0 (Some 1000%nat)]
     "Description must be less than 1000 characters";
   Validator.mkChain InBody "category" false
     [Validator.IsIn categories]
     "Invalid category"].

(** [router.post("/upload", upload.single("audio"), [...], uploadAudio)] *)
Definition postUpload (env : Env) (req : Req.t) : World -> Response * World :=
  match multerConfig.single req with
  | inl e => fun w => (errorHandler (development env) e, w)
  | inr req1 =>
      handle env (audioController.uploadAudio env
                    (Validator.runAll uploadChains req1))
  end.

Definition listChains : list Validator.Chain :=
  [Validator.mkChain InQuery "category" true
     [Validator.IsIn categories]
     "Invalid category filter"].

(** [router.get("/", [...], getUserAudioFiles)] *)
Definition getList (env : Env) (req : Req.t) : World -> Response * World :=
  handle env (audioController.getUserAudioFiles (Validator.runAll listChains req)).

Definition checkChains : list Validator.Chain :=
  [Validator.mkChain InParams "fileName" false [Validator.NotEmpty]
     "File name is required";
   Validator.mkChain InParams "userId" false [Validator.NotEmpty]
     "User ID is required"].

(** [router.get("/check/:fileName/:userId", [...], getAudioFileByName)] *)
Definition getCheck (env : Env) (req : Req.t) : World -> Response * World :=
  handle env (audioController.getAudioFileByName (Validator.runAll checkChains req)).

Section Routes.
Variable isUUID : string -> bool.
Variable getSignedUrl : string -> string -> Z -> string.

Definition idChains : list Validator.Chain :=
  [Validator.mkChain InParams "id" false [Validator.Check isUUID]
     "Invalid audio file ID"].

(** [router.get("/:id", [...], getAudioFile)] *)
Definition getOne (env : Env) (req : Req.t) : World -> Response * World :=
  handle env (audioController.getAudioFile (Validator.runAll idChains req)).

(** [router.get("/:id/play", [...], getPlaybackUrl)] *)
Definition getPlay (env : Env) (req : Req.t) : World -> Response * World :=
  handle env (audioController.getPlaybackUrl getSignedUrl env
                (Validator.runAll idChains req)).

(** [router.delete("/:id", [...], deleteAudio)] *)
Definition deleteOne (env : Env) (req : Req.t) : World -> Response * World :=
  handle env (audioController.deleteAudio env (Validator.runAll idChains req)).
End Routes.

End audioRoutes.

Module userRoutes.
Section Routes.
Variable isEmail : string -> bool.
Variable bcrypt_hash : string -> string -> string.

Definition updateChains : list Validator.Chain :=
  [Validator.mkChain InBody "username" true [Validator.IsLength 3 None]
     "Username must be at least 3 characters";
   Validator.mkChain InBody "email" true [Validator.Check isEmail]
     "Invalid email format";
   Validator.mkChain InBody "password" true [Validator.IsLength 6 None]
     "Password must be at least 6 characters"].

(** [router.get("/me", getCurrentUser)] *)
Definition getMe (env : Env) (req : Req.t) : World -> Response * World :=
  handle env (userController.getCurrentUser req).

(** [router.put("/:id", [...], updateUser)] *)
Definition putUser (env : Env) (req : Req.t) : World -> Response * World :=
  handle env (userController.updateUser bcrypt_hash env
                (Validator.runAll updateChains req)).

(** [router.delete("/:id", deleteUser)] *)
Definition deleteUser (env : Env) (req : Req.t) : World -> Response * World :=
  handle env (userController.deleteUser req).
End Routes.
End userRoutes.

Module authRoutes.
Section Routes.
Variable isEmail : string -> bool.
Variable bcrypt_hash : string -> string -> string.
Variable bcrypt_compare : string -> string -> bool.
Variable jwt_sign : string -> string -> Z -> string.

Definition loginChains : list Validator.Chain :=
  [Validator.mkChain InBody "username" false [Validator.NotEmpty]
     "Username is required";
   Validator.mkChain InBody "password" false [Validator.NotEmpty]
     "Password is required"].

Definition registerChains : list Validator.Chain :=
  [Validator.mkChain InBody "username" false [Validator.IsLength 3 None]
     "Username must be at least 3 characters";
   Validator.mkChain InBody "password" false [Validator.IsLength 6 None]
     "Password must be at least 6 characters";
   Validator.mkChain InBody "email" true [Validator.Check isEmail]
     "Invalid email format"].

(** [router.post("/login", [...], login)] *)
Definition postLogin (env : Env) (req : Req.t) : World -> Response * World :=
  handle env (authController.login bcrypt_compare jwt_sign env
                (Validator.runAll loginChains req)).

(** [router.post("/register", [...], register)] *)
Definition postRegister (env : Env) (req : Req.t) : World -> Response * World :=
  handle env (authController.register bcrypt_hash jwt_sign env
                (Validator.runAll registerChains req)).
End Routes.
End authRoutes.

(** ** Authentication middleware *)

Module authMiddleware.

(** [s.substring(n)] *)
Fixpoint substring (n : nat) (s : string) : string :=
  match n, s with
  | O, _ => s
  | S n', String _ s' => substring n' s'
  | S _, EmptyString => EmptyString
  end.

Definition noToken : Response := mkResponse 401 (jerror "No token provided").
Definition invalidToken : Response := mkResponse 401 (jerror "Invalid or expired token").

Section Verify.
(** [jwt.verify(token, JWT_SECRET)]: the decoded payload, [None] when it
    throws (bad signature, malformed or expired token). *)
Variable jwt_verify : string -> option AuthUser.

(** The middleware on the request's [Authorization] header: either the
    response it sends, or the identity it attaches as [req.user] before
    calling [next()]. *)
Definition run (authorization : option string) : Response + AuthUser :=
  if negb (JS.truthy authorization)
     || negb (JS.startsWith "Bearer " (default "" authorization))
  then inl noToken
  else
    match jwt_verify (substring 7 (default "" authorization)) with
    | Some decoded => inr decoded
    | None => inl invalidToken
    end.
End Verify.

End authMiddleware.

(** ** The upload page of the client *)

Module UploadPage.

Definition CATEGORIES : list string :=
  ["Music"; "Podcast"; "Audiobook"; "Sound Effect"; "Voice Recording"; "Other"].

Definition validAudioTypes : list string := ["audio/mpeg"; "audio/mp3"; "audio/mp4"].

Definition maxSize : Z := 50 * 1024 * 1024.

(** The checks of [handleFileChange] on the selected file ([type], [size]):
    the error it sets, [None] when the file is kept. *)
Definition fileError (f : File) : option string :=
  if negb (JS.arrayIncludes validAudioTypes (mimetype f)) then
    Some "Invalid file type. Please select a valid audio file."
  else if Z.ltb maxSize (size f) then
    Some "File size exceeds 50MB limit."
  else None.

End UploadPage.

(** ** Auxiliary notions used by the statements *)

(** The world after one more downstream call, nothing else changed. *)
Definition logged (c : Call) (w : World) : World :=
  mkWorld (users w) (audioFiles w) (bucket w) (calls w ++ [c]).

Definition sameLocation (a b : Location) : bool :=
  match a, b with
  | InBody, InBody | InParams, InParams | InQuery, InQuery => true
  | _, _ => false
  end.

(** The value a chain leaves in its field: the sanitized one, if any. *)
Definition sanitized (c : Validator.Chain) (v : option string) : option string :=
  if Validator.optional c && negb (Validator.defined v) then v
  else match fst (Validator.runSteps (Validator.steps c) v) with
       | Some s => Some s
       | None => v
       end.

(** A step that validates (adds an error or not) and never rewrites. *)
Definition validates (st : Validator.Step) : bool :=
  match st with
  | Validator.Trim => false
  | _ => true
  end.

(** A chain made of one validator and no sanitizer. *)
Definition pureChain (c : Validator.Chain) : Prop :=
  exists st, Validator.steps c = [st] /\ validates st = true.

(** The key under which an upload of [f] by the caller of [req] is stored. *)
Definition uploadKey (env : Env) (req : Req.t) (f : File) : string :=
  s3Service.objectKey (userId (Req.user req)) (uuidv4 env) (originalname f).

(** The world once the blob of [f] is in the bucket and the insert of its
    record has been issued, with [rows] as the asset table. *)
Definition afterUpload (env : Env) (req : Req.t) (f : File)
           (rows : list AudioFile.t) (w : World) : World :=
  mkWorld (users w) rows
    (<[uploadKey env req f := mkS3Object (buffer f) (mimetype f)]> (bucket w))
    (calls w ++ [S3PutObject (uploadKey env req f);
                 DbAudioCreate (uploadKey env req f)]).

(** The record an accepted upload creates. *)
Definition uploadedRow (env : Env) (req : Req.t) (f : File)
           (title category : string) : AudioFile.t :=
  AudioFile.mk (dbUuid env) title
    (JS.orNull (Validator.trim <$> (Req.body req !! "description")))
    category
    (uploadKey env req f)
    (s3Service.objectUrl env (uploadKey env req f))
    (originalname f) (size f) (mimetype f)
    (userId (Req.user req)) (now env) (now env).

(** Everything of an account but its stored secret. *)
Definition publicView (u : User.t) : string * string * option string * Z * Z :=
  (User.id u, User.username u, User.email u, User.createdAt u, User.updatedAt u).

(** Two worlds whose accounts differ at most in their stored secrets. *)
Definition samePublic (w1 w2 : World) : Prop :=
  map publicView (users w1) = map publicView (users w2).

(** A successful response: 200 or 201. *)
Definition success (r : Response) : Prop :=
  status r = 200%nat \/ status r = 201%nat.

(** How many validators of a chain fail on the value [v] of its field. *)
Definition failures (c : Validator.Chain) (v : option string) : nat :=
  if Validator.optional c && negb (Validator.defined v) then 0%nat
  else snd (Validator.runSteps (Validator.steps c) v).

Definition errorOf (c : Validator.Chain) : ValidationError :=
  mkValidationError (Validator.loc c) (Validator.field c) (Validator.withMessage c).

(** No ["/"] occurs in the string (as in an identifier the persistence
    layer assigns). *)
Fixpoint noSlash (s : string) : bool :=
  match s with
  | EmptyString => true
  | String c s' => negb (Ascii.eqb c "/"%char) && noSlash s'
  end.

(** The category filter of a listing request: the [category] query
    parameter when it is a non-empty string ([if (category)]). *)
Definition categoryFilter (req : Req.t) : option string :=
  match Req.query req !! "category" with
  | Some c => if String.eqb c "" then None else Some c
  | None => None
  end.

(** In the words of the listing contract: the asset is owned by the caller
    and, when a category filter is given, is of that category. *)
Definition listed (caller : string) (filter : option string) (a : AudioFile.t) : Prop :=
  AudioFile.userId a = caller
  /\ forall c, filter = Some c -> AudioFile.category a = c.

#[export] Instance listed_dec caller filter a : Decision (listed caller filter a).
Proof.
  unfold listed. destruct filter as [c|].
  - destruct (decide (AudioFile.userId a = caller)) as [Hu|Hu];
      [|right; intros [? _]; contradiction].
    destruct (decide (AudioFile.category a = c)) as [Hc|Hc].
    + left. split; [exact Hu|]. intros c' [= <-]. exact Hc.
    + right. intros [_ H]. apply Hc, H. reflexivity.
  - destruct (decide (AudioFile.userId a = caller)) as [Hu|Hu].
    + left. split; [exact Hu|]. intros c' [=].
    + right. intros [? _]. contradiction.
Defined.

(** An error object as the storage SDK rejects with: a service exception,
    which carries [$metadata], and is none of the kinds [errorHandler]
    dispatches on before it reaches the storage branch. *)
Definition sdkServiceError (e : Err) : bool :=
  negb (isMulterError e)
  && hasMetadata e
  && negb (JS.includes "Invalid file type" (message e))
  && negb (JS.arrayIncludes ["ValidationError"; "UnauthorizedError"; "JsonWebTokenError"]
                            (name e))
  && negb (codeIs e "P2002")
  && negb (codeIs e "P2025").

Definition storageError : Response :=
  mkResponse 500 (JObj [("error", JStr "Storage Error");
                        ("details", JStr "Failed to process file storage operation")]).

(** Concrete accounts, assets and requests on which the statements are
    exercised. *)
Module Sample.

Definition alice : User.t := User.mk "u-alice" "alice" "$2a$10$alice" None 1 1.
Definition bob : User.t :=
  User.mk "u-bob" "bob" "$2a$10$bob" (Some "bob@example.com") 2 2.

Definition song : AudioFile.t :=
  AudioFile.mk "a1" "Song" None "Music" "audio/u-alice/t0-song.mp3"
    "https://bkt.s3.us-east-1.amazonaws.com/audio/u-alice/t0-song.mp3"
    "song.mp3" 10 "audio/mpeg" "u-alice" 5 5.

Definition talk : AudioFile.t :=
  AudioFile.mk "a0" "Talk" (Some "episode 1") "Podcast" "audio/u-alice/t1-talk.mp3"
    "https://bkt.s3.us-east-1.amazonaws.com/audio/u-alice/t1-talk.mp3"
    "talk.mp3" 20 "audio/mpeg" "u-alice" 7 7.

Definition world : World :=
  mkWorld [alice; bob] [song; talk]
    (<["audio/u-alice/t0-song.mp3" := mkS3Object "ID3song" "audio/mpeg"]>
       (<["audio/u-alice/t1-talk.mp3" := mkS3Object "ID3talk" "audio/mpeg"]> ∅))
    [].

Definition env : Env :=
  mkEnv "tok1" "a2" 100 "salt" None "bkt" "us-east-1" false.

Definition storageDown : Err :=
  mkErr false "ServiceUnavailable" None "Service Unavailable" true None "".

Definition envS3Down : Env :=
  mkEnv "tok1" "a2" 100 "salt" (Some storageDown) "bkt" "us-east-1" false.

Definition asAlice : AuthUser := mkAuthUser "u-alice" "alice".
Definition asBob : AuthUser := mkAuthUser "u-bob" "bob".

(** A request addressing [/:id]. *)
Definition byId (who : AuthUser) (id : string) : Req.t :=
  Req.mk who (<["id" := id]> ∅) ∅ ∅ None [].

Definition mp3 : File := mkFile "x.mp3" "audio/mpeg" 3 "ID3".

(** A multipart upload with a title and a category. *)
Definition upload (who : AuthUser) (title category : string) : Req.t :=
  Req.mk who ∅ ∅ (<["title" := title]> (<["category" := category]> ∅))
         (Some mp3) [].

(** The same accounts with other stored secrets. *)
Definition rehashed : World :=
  mkWorld [User.mk "u-alice" "alice" "$2a$10$pepper-alice" None 1 1;
           User.mk "u-bob" "bob" "$2a$10$pepper-bob" (Some "bob@example.com") 2 2]
          [song; talk] ∅ [].

(** Alice logging in with the password "alice". *)
Definition loginAlice : Req.t :=
  Req.mk (mkAuthUser "" "") ∅ ∅
         (<["username" := "alice"]> (<["password" := "alice"]> ∅)) None [].

(** Bob addressing [PUT /users/u-alice] with a two-character username. *)
Definition renameAlice : Req.t :=
  Req.mk asBob (<["id" := "u-alice"]> ∅) ∅ (<["username" := "ab"]> ∅) None [].

(** Bob addressing [PUT /users/u-alice] with a well-formed username. *)
Definition takeOverAlice : Req.t :=
  Req.mk asBob (<["id" := "u-alice"]> ∅) ∅ (<["username" := "mallory"]> ∅) None [].

(** Alice changing her own password and nothing else. *)
Definition newPassword : Req.t :=
  Req.mk asAlice (<["id" := "u-alice"]> ∅) ∅ (<["password" := "hunter22"]> ∅) None [].

(** Bob probing for Alice's file name under Alice's account identifier. *)
Definition probe : Req.t :=
  Req.mk asBob (<["fileName" := "song.mp3"]> (<["userId" := "u-alice"]> ∅)) ∅ ∅ None [].

Fixpoint repeatChar (n : nat) (s : string) : string :=
  match n with
  | O => s
  | S n' => String "a"%char (repeatChar n' s)
  end.

Definition title200 : string := repeatChar 200 "".
Definition title201 : string := repeatChar 201 "".

Definition isUUID (s : string) : bool := Nat.eqb (String.length s) 36.
Definition getSignedUrl (b k : string) (t : Z) : string :=
  "https://" +:+ b +:+ ".s3.amazonaws.com/" +:+ k +:+ "?X-Amz-Signature=sig".
Definition isEmail (s : string) : bool := JS.includes "@" s.
Definition bcrypt_hash (p s : string) : string := "$2a$10$" +:+ s +:+ p.
Definition bcrypt_compare (p h : string) : bool :=
  JS.startsWith "$2a$10$" h && JS.includes p h.
Definition jwt_sign (u n : string) (iat : Z) : string := "jwt." +:+ u +:+ "." +:+ n.

End Sample.

(** The account a registration creates. *)
Definition newAccount (bcrypt_hash : string -> string -> string)
           (env : Env) (req : Req.t) : User.t :=
  User.mk (dbUuid env)
    (Validator.toString (Req.body req !! "username"))
    (bcrypt_hash (Validator.toString (Req.body req !! "password")) (salt env))
    (JS.orNull (Req.body req !! "email"))
    (now env) (now env).

(** The account [u] already holds the identifier, the username or the email
    a registration would take. *)
Definition taken (env : Env) (req : Req.t) (u : User.t) : bool :=
  String.eqb (User.id u) (dbUuid env)
  || String.eqb (User.username u) (Validator.toString (Req.body req !! "username"))
  || Prisma.sameEmail (User.email u) (JS.orNull (Req.body req !! "email")).


(** The durable state: both tables and the bucket. *)
Definition durable (w : World) : list User.t * list AudioFile.t * gmap string S3Object :=
  (users w, audioFiles w, bucket w).

(** Further concrete requests. *)
Module Cases.

Definition jwt_verify (t : string) : option AuthUser :=
  if String.eqb t "jwt.u-alice.alice" then Some Sample.asAlice
  else if String.eqb t "jwt.u-bob.bob" then Some Sample.asBob
  else None.

Definition wav : File := mkFile "x.wav" "audio/wav" 3 "RIFF".
Definition huge : File := mkFile "x.mp3" "audio/mpeg" (50 * 1024 * 1024 + 1) "ID3".

Definition uploadOf (who : AuthUser) (f : File) : Req.t :=
  Req.mk who ∅ ∅ (<["title" := "Song"]> (<["category" := "Music"]> ∅)) (Some f) [].

Definition credentials (username password : string) : Req.t :=
  Req.mk (mkAuthUser "" "") ∅ ∅
         (<["username" := username]> (<["password" := password]> ∅)) None [].

Definition as_ (who : AuthUser) : Req.t := Req.mk who ∅ ∅ ∅ None [].

End Cases.

(** * Properties *)

(** Unfold the monad's plumbing and reduce what has become a redex. *)
Ltac monad_simpl :=
  cbn [users audioFiles bucket calls default from_option fst snd Datatypes.id].

Ltac monad_unfold :=
  unfold handle;
  repeat (unfold bind, call, getWorld, ret, throw, setUsers, setAudioFiles, setBucket);
  monad_simpl.

(** ** Lengths *)



(** A string that passes a positive lower bound is not empty. *)
Lemma isLength_nonempty m mx s : Validator.isLength (S m) mx s = true -> s <> "".
Proof. intros H ->. vm_compute in H. discriminate. Qed.


(** The sanitizer and the length of the validators are reasoned about
    through these facts; they are evaluated on concrete strings only. *)
#[local] Opaque Validator.trim Validator.length.

(** ** Validation chains as middleware *)

Section ChainFacts.

Lemma sameValue_refl v : Validator.sameValue v v = true.
Proof. destruct v as [s|]; simpl; [apply String.eqb_refl | reflexivity]. Qed.

Lemma sameValue_eq v v' : Validator.sameValue v v' = true -> v = v'.
Proof.
  destruct v as [a|], v' as [b|]; simpl; try discriminate; try reflexivity.
  intros H. apply String.eqb_eq in H. now subst.
Qed.

Lemma iter_addError_user n e r :
  Req.user (Nat.iter n (Req.addError e) r) = Req.user r.
Proof. induction n as [|n IH]; simpl; [reflexivity | exact IH]. Qed.

Lemma iter_addError_params n e r :
  Req.params (Nat.iter n (Req.addError e) r) = Req.params r.
Proof. induction n as [|n IH]; simpl; [reflexivity | exact IH]. Qed.

Lemma iter_addError_query n e r :
  Req.query (Nat.iter n (Req.addError e) r) = Req.query r.
Proof. induction n as [|n IH]; simpl; [reflexivity | exact IH]. Qed.

Lemma iter_addError_body n e r :
  Req.body (Nat.iter n (Req.addError e) r) = Req.body r.
Proof. induction n as [|n IH]; simpl; [reflexivity | exact IH]. Qed.

Lemma iter_addError_file n e r :
  Req.file (Nat.iter n (Req.addError e) r) = Req.file r.
Proof. induction n as [|n IH]; simpl; [reflexivity | exact IH]. Qed.

Lemma iter_addError_errors n e r :
  Req.errors (Nat.iter n (Req.addError e) r) = Req.errors r ++ replicate n e.
Proof.
  induction n as [|n IH]; simpl.
  - now rewrite app_nil_r.
  - rewrite IH, <- app_assoc. f_equal.
    clear IH. induction n as [|n IH]; simpl; [reflexivity | now rewrite IH].
Qed.

Lemma iter_addError_get n e l k r :
  Req.get l k (Nat.iter n (Req.addError e) r) = Req.get l k r.
Proof.
  destruct l; unfold Req.get;
    now rewrite ?iter_addError_body, ?iter_addError_params, ?iter_addError_query.
Qed.

Lemma get_set_same l k s r : Req.get l k (Req.set l k s r) = Some s.
Proof. destruct l; simpl; apply lookup_insert_eq. Qed.

Lemma get_set_other l k l' k' s r :
  sameLocation l l' && String.eqb k k' = false ->
  Req.get l k (Req.set l' k' s r) = Req.get l k r.
Proof.
  intros H. destruct l, l'; simpl in *; try reflexivity;
    apply lookup_insert_ne; apply String.eqb_neq in H; congruence.
Qed.

(** What a chain leaves in each field of the request. *)
Lemma run_get c r l k :
  Req.get l k (Validator.run c r)
  = if sameLocation l (Validator.loc c) && String.eqb k (Validator.field c)
    then sanitized c (Req.get (Validator.loc c) (Validator.field c) r)
    else Req.get l k r.
Proof.
  unfold Validator.run, sanitized.
  set (v := Req.get (Validator.loc c) (Validator.field c) r).
  destruct (sameLocation l (Validator.loc c) && (k =? Validator.field c)%string)
    eqn:Hsame.
  - apply andb_true_iff in Hsame as [Hl Hk]. apply String.eqb_eq in Hk.
    assert (l = Validator.loc c) as -> by (destruct l, (Validator.loc c); easy).
    subst k. fold v.
    destruct (Validator.optional c && negb (Validator.defined v)); [reflexivity|].
    destruct (Validator.runSteps (Validator.steps c) v) as [v' n].
    rewrite iter_addError_get. cbn [fst].
    destruct v' as [s|]; [|reflexivity].
    destruct (Validator.sameValue v (Some s)) eqn:Hv.
    + apply sameValue_eq in Hv. now rewrite <- Hv.
    + apply get_set_same.
  - destruct (Validator.optional c && negb (Validator.defined v)); [reflexivity|].
    destruct (Validator.runSteps (Validator.steps c) v) as [v' n].
    rewrite iter_addError_get.
    destruct v' as [s|]; [|reflexivity].
    destruct (Validator.sameValue v (Some s)); [reflexivity|].
    now apply get_set_other.
Qed.

(** A chain never touches the identity or the uploaded file. *)
Lemma run_user c r : Req.user (Validator.run c r) = Req.user r.
Proof.
  unfold Validator.run.
  destruct (_ && _); [reflexivity|].
  destruct (Validator.runSteps _ _) as [v' k].
  rewrite iter_addError_user.
  destruct v' as [s|]; [|reflexivity].
  destruct (Validator.sameValue _ _); [reflexivity|].
  now destruct (Validator.loc c).
Qed.

Lemma run_file c r : Req.file (Validator.run c r) = Req.file r.
Proof.
  unfold Validator.run.
  destruct (_ && _); [reflexivity|].
  destruct (Validator.runSteps _ _) as [v' k].
  rewrite iter_addError_file.
  destruct v' as [s|]; [|reflexivity].
  destruct (Validator.sameValue _ _); [reflexivity|].
  now destruct (Validator.loc c).
Qed.

Lemma runAll_user cs r : Req.user (Validator.runAll cs r) = Req.user r.
Proof.
  unfold Validator.runAll. revert r.
  induction cs as [|c cs IH]; intros r; simpl; [reflexivity|].
  now rewrite IH, run_user.
Qed.

Lemma runAll_file cs r : Req.file (Validator.runAll cs r) = Req.file r.
Proof.
  unfold Validator.runAll. revert r.
  induction cs as [|c cs IH]; intros r; simpl; [reflexivity|].
  now rewrite IH, run_file.
Qed.

(** A chain made of one validator and no sanitizer only adds errors. *)
Lemma run_validator l f o st m r :
  validates st = true ->
  exists k, Validator.run (Validator.mkChain l f o [st] m) r
            = Nat.iter k (Req.addError (mkValidationError l f m)) r.
Proof.
  intros Hst. unfold Validator.run. cbn [Validator.optional Validator.loc
    Validator.field Validator.steps Validator.withMessage].
  destruct (_ && _); [now exists 0%nat|].
  set (v := Req.get l f r).
  assert (Hv : fst (Validator.runStep st v) = v) by (destruct st; easy).
  cbn [Validator.runSteps].
  destruct (Validator.runStep st v) as [v1 ok]. simpl in Hv. subst v1.
  exists (if ok then 0%nat else 1%nat).
  destruct v as [s|]; [|reflexivity].
  now rewrite sameValue_refl.
Qed.

(** Chains of single validators leave params, query and body as they were. *)
Lemma run_pure c r :
  pureChain c ->
  exists k, Validator.run c r
            = Nat.iter k (Req.addError
                            (mkValidationError (Validator.loc c) (Validator.field c)
                                               (Validator.withMessage c))) r.
Proof.
  intros (st & Hs & Hv). destruct c as [l f o sts m]. simpl in *. subst sts.
  now apply run_validator.
Qed.

Lemma runAll_pure cs r :
  Forall pureChain cs ->
  Req.params (Validator.runAll cs r) = Req.params r
  /\ Req.query (Validator.runAll cs r) = Req.query r
  /\ Req.body (Validator.runAll cs r) = Req.body r.
Proof.
  unfold Validator.runAll. intros H. revert r.
  induction H as [|c cs Hc _ IH]; intros r; simpl; [easy|].
  destruct (run_pure c r Hc) as [k ->].
  destruct (IH (Nat.iter k (Req.addError
     (mkValidationError (Validator.loc c) (Validator.field c)
                        (Validator.withMessage c))) r)) as (-> & -> & ->).
  now rewrite iter_addError_params, iter_addError_query, iter_addError_body.
Qed.

End ChainFacts.

(** ** Read, playback and delete of one asset: existence, then ownership *)

Section SingleAsset.
Variable isUUID : string -> bool.
Variable getSignedUrl : string -> string -> Z -> string.

Lemma idChains_pure : Forall pureChain (audioRoutes.idChains isUUID).
Proof. repeat constructor. now exists (Validator.Check isUUID). Qed.

Lemma idChains_params r :
  Req.params (Validator.runAll (audioRoutes.idChains isUUID) r) = Req.params r.
Proof. apply (runAll_pure _ r idChains_pure). Qed.

Lemma getOne_missing env req w id :
  Req.params req !! "id" = Some id ->
  Prisma.audioById id (audioFiles w) = None ->
  audioRoutes.getOne isUUID env req w
  = (mkResponse 404 (jerror "Audio file not found"), logged (DbAudioFindUnique id) w).
Proof.
  intros Hid Hnone.
  unfold audioRoutes.getOne, audioController.getAudioFile, Prisma.audioFile_findUnique.
  monad_unfold. rewrite idChains_params, Hid. monad_simpl. now rewrite Hnone.
Qed.

Lemma getPlay_missing env req w id :
  Req.params req !! "id" = Some id ->
  Prisma.audioById id (audioFiles w) = None ->
  audioRoutes.getPlay isUUID getSignedUrl env req w
  = (mkResponse 404 (jerror "Audio file not found"), logged (DbAudioFindUnique id) w).
Proof.
  intros Hid Hnone.
  unfold audioRoutes.getPlay, audioController.getPlaybackUrl, Prisma.audioFile_findUnique.
  monad_unfold. rewrite idChains_params, Hid. monad_simpl. now rewrite Hnone.
Qed.

Lemma deleteOne_missing env req w id :
  Req.params req !! "id" = Some id ->
  Prisma.audioById id (audioFiles w) = None ->
  audioRoutes.deleteOne isUUID env req w
  = (mkResponse 404 (jerror "Audio file not found"), logged (DbAudioFindUnique id) w).
Proof.
  intros Hid Hnone.
  unfold audioRoutes.deleteOne, audioController.deleteAudio, Prisma.audioFile_findUnique.
  monad_unfold. rewrite idChains_params, Hid. monad_simpl. now rewrite Hnone.
Qed.

Lemma not_owner a who :
  AudioFile.userId a <> who -> negb (JS.seq (AudioFile.userId a) who) = true.
Proof.
  intros H. unfold JS.seq. apply negb_true_iff, String.eqb_neq. exact H.
Qed.

Lemma getOne_foreign env req w id a :
  Req.params req !! "id" = Some id ->
  Prisma.audioById id (audioFiles w) = Some a ->
  AudioFile.userId a <> userId (Req.user req) ->
  audioRoutes.getOne isUUID env req w
  = (mkResponse 403 (jerror "Forbidden"), logged (DbAudioFindUnique id) w).
Proof.
  intros Hid Hsome Hne.
  unfold audioRoutes.getOne, audioController.getAudioFile, Prisma.audioFile_findUnique.
  monad_unfold. rewrite idChains_params, runAll_user, Hid. monad_simpl.
  now rewrite Hsome, (not_owner _ _ Hne).
Qed.

Lemma getPlay_foreign env req w id a :
  Req.params req !! "id" = Some id ->
  Prisma.audioById id (audioFiles w) = Some a ->
  AudioFile.userId a <> userId (Req.user req) ->
  audioRoutes.getPlay isUUID getSignedUrl env req w
  = (mkResponse 403 (jerror "Forbidden"), logged (DbAudioFindUnique id) w).
Proof.
  intros Hid Hsome Hne.
  unfold audioRoutes.getPlay, audioController.getPlaybackUrl, Prisma.audioFile_findUnique.
  monad_unfold. rewrite idChains_params, runAll_user, Hid. monad_simpl.
  now rewrite Hsome, (not_owner _ _ Hne).
Qed.

Lemma deleteOne_foreign env req w id a :
  Req.params req !! "id" = Some id ->
  Prisma.audioById id (audioFiles w) = Some a ->
  AudioFile.userId a <> userId (Req.user req) ->
  audioRoutes.deleteOne isUUID env req w
  = (mkResponse 403 (jerror "Forbidden"), logged (DbAudioFindUnique id) w).
Proof.
  intros Hid Hsome Hne.
  unfold audioRoutes.deleteOne, audioController.deleteAudio, Prisma.audioFile_findUnique.
  monad_unfold. rewrite idChains_params, runAll_user, Hid. monad_simpl.
  now rewrite Hsome, (not_owner _ _ Hne).
Qed.

End SingleAsset.

(** C2.  For read-single ([GET /audio/:id]), playback ([GET /audio/:id/play])
    and delete ([DELETE /audio/:id]) and every asset identifier: when no asset
    has that identifier the response is 404 "Audio file not found", whoever
    the caller is (no owner is compared); when the asset exists and its owner
    is not the caller the response is 403 "Forbidden", a body that carries
    nothing of the asset.  In both cases the only downstream call is the
    lookup by identifier: the tables and the bucket are as before, no signed
    URL is requested and nothing is deleted. *)
Theorem single_asset_not_found_then_forbidden :
  forall isUUID getSignedUrl env req w id route,
    Req.params req !! "id" = Some id ->
    In route [audioRoutes.getOne isUUID;
              audioRoutes.getPlay isUUID getSignedUrl;
              audioRoutes.deleteOne isUUID] ->
    (Prisma.audioById id (audioFiles w) = None ->
     route env req w
     = (mkResponse 404 (jerror "Audio file not found"),
        logged (DbAudioFindUnique id) w))
    /\ (forall a,
          Prisma.audioById id (audioFiles w) = Some a ->
          AudioFile.userId a <> userId (Req.user req) ->
          route env req w
          = (mkResponse 403 (jerror "Forbidden"),
             logged (DbAudioFindUnique id) w)).
Proof.
  intros isUUID getSignedUrl env req w id route Hid Hroute.
  simpl in Hroute.
  destruct Hroute as [<- | [<- | [<- | []]]]; split; intros.
  - now apply getOne_missing.
  - now apply getOne_foreign with a.
  - now apply getPlay_missing.
  - now apply getPlay_foreign with a.
  - now apply deleteOne_missing.
  - now apply deleteOne_foreign with a.
Qed.

(** Bob asks to delete an identifier nobody has, then Alice's asset. *)
Lemma single_asset_not_found_then_forbidden_witness :
  audioRoutes.deleteOne Sample.isUUID Sample.env
    (Sample.byId Sample.asBob "zz") Sample.world
  = (mkResponse 404 (jerror "Audio file not found"),
     logged (DbAudioFindUnique "zz") Sample.world)
  /\ audioRoutes.deleteOne Sample.isUUID Sample.env
       (Sample.byId Sample.asBob "a1") Sample.world
     = (mkResponse 403 (jerror "Forbidden"),
        logged (DbAudioFindUnique "a1") Sample.world).
Proof.
  split.
  - apply (single_asset_not_found_then_forbidden Sample.isUUID Sample.getSignedUrl
             Sample.env (Sample.byId Sample.asBob "zz") Sample.world "zz").
    + reflexivity.
    + simpl. auto.
    + reflexivity.
  - apply (single_asset_not_found_then_forbidden Sample.isUUID Sample.getSignedUrl
             Sample.env (Sample.byId Sample.asBob "a1") Sample.world "a1"
             (audioRoutes.deleteOne Sample.isUUID) eq_refl
             (or_intror (or_intror (or_introl eq_refl)))) with Sample.song.
    + reflexivity.
    + vm_compute. discriminate.
Defined.

(** ** Upload: the blob first, then the record *)

Section Upload.

(** What the upload chains leave in the body: the title and the
    description trimmed, the category as submitted. *)
Lemma upload_sanitized req :
  let q := Validator.runAll audioRoutes.uploadChains req in
  Req.body q !! "title"
  = Some (Validator.trim (Validator.toString (Req.body req !! "title")))
  /\ Req.body q !! "description" = Validator.trim <$> (Req.body req !! "description")
  /\ Req.body q !! "category" = Req.body req !! "category".
Proof.
  intros q. subst q. unfold Validator.runAll, audioRoutes.uploadChains.
  cbn [fold_left].
  repeat split.
  - change (Req.body ?r !! "title") with (Req.get InBody "title" r).
    rewrite !run_get. reflexivity.
  - change (Req.body ?r !! "description") with (Req.get InBody "description" r).
    rewrite !run_get. cbn.
    unfold sanitized. cbn.
    change (Req.body req !! "description") with (Req.get InBody "description" req).
    now destruct (Req.get InBody "description" req).
  - change (Req.body ?r !! "category") with (Req.get InBody "category" r).
    rewrite !run_get. cbn. unfold sanitized. cbn.
    change (Req.body req !! "category") with (Req.get InBody "category" req).
    now destruct (Req.get InBody "category" req).
Qed.

Lemma single_inr r r1 : multerConfig.single r = inr r1 -> r1 = r.
Proof.
  unfold multerConfig.single. intros H.
  destruct (Req.file r) as [f|]; [|congruence].
  destruct (multerConfig.fileFilter f); [discriminate|].
  destruct (Z.leb _ _); [discriminate | congruence].
Qed.


End Upload.



(** ** Deletion: the blob first, then the record *)

Lemma errorHandler_storage dev e :
  sdkServiceError e = true -> errorHandler dev e = storageError.
Proof.
  unfold sdkServiceError, errorHandler, JS.arrayIncludes. cbn [existsb].
  intros H.
  repeat (apply andb_true_iff in H as [H ?]).
  repeat match goal with
         | H : negb _ = true |- _ => apply negb_true_iff in H
         end.
  repeat match goal with
         | H : _ || _ = false |- _ => apply orb_false_iff in H as [? H]
         end.
  rewrite H.
  replace (JS.includes "Invalid file type" (message e)) with false by easy.
  rewrite andb_false_r.
  replace (String.eqb (name e) "ValidationError") with false by easy.
  replace (String.eqb (name e) "UnauthorizedError") with false by easy.
  replace (String.eqb (name e) "JsonWebTokenError") with false by easy.
  replace (codeIs e "P2002") with false by easy.
  replace (codeIs e "P2025") with false by easy.
  replace (hasMetadata e) with true by easy.
  now rewrite orb_true_r.
Qed.

Lemma audioById_exists id rows a :
  Prisma.audioById id rows = Some a ->
  existsb (fun a => String.eqb (AudioFile.id a) id) rows = true.
Proof.
  unfold Prisma.audioById. intros H. apply find_some in H as [Hin Heq].
  apply existsb_exists. now exists a.
Qed.

(** C4.  For a delete request on an existing asset the caller owns: the
    blob delete is issued first and the record delete after it.  When the
    blob delete fails the request stops there: no record delete is issued,
    the asset table (and the bucket) are as before, and the caller gets what
    the error handler makes of the storage error, which for a service
    exception of the storage SDK is 500 "Storage Error".  When it succeeds
    the record is deleted next and the response is 200. *)
Theorem delete_blob_before_record :
  forall isUUID env req w id a,
    Req.params req !! "id" = Some id ->
    Prisma.audioById id (audioFiles w) = Some a ->
    AudioFile.userId a = userId (Req.user req) ->
    let r := audioRoutes.deleteOne isUUID env req w in
    (s3Failure env = None ->
     r = (mkResponse 200 (JObj [("message", JStr "Audio file deleted successfully")]),
          mkWorld (users w)
            (List.filter (fun x => negb (String.eqb (AudioFile.id x) id)) (audioFiles w))
            (delete (AudioFile.s3Key a) (bucket w))
            (calls w ++ [DbAudioFindUnique id;
                         S3DeleteObject (AudioFile.s3Key a);
                         DbAudioDelete id])))
    /\ (forall e,
          s3Failure env = Some e ->
          r = (errorHandler (development env) e,
               mkWorld (users w) (audioFiles w) (bucket w)
                 (calls w ++ [DbAudioFindUnique id;
                              S3DeleteObject (AudioFile.s3Key a)]))
          /\ (sdkServiceError e = true -> fst r = storageError)).
Proof.
  intros isUUID env req w id a Hid Ha Hown r.
  assert (Hr : r = handle env
                     (audioController.deleteAudio env
                        (Validator.runAll (audioRoutes.idChains isUUID) req)) w)
    by reflexivity.
  unfold audioController.deleteAudio, Prisma.audioFile_findUnique,
    s3Service.deleteFromS3, s3Service.send, Prisma.audioFile_delete in Hr.
  rewrite idChains_params, runAll_user, Hid in Hr.
  assert (Hseq : negb (JS.seq (AudioFile.userId a) (userId (Req.user req))) = false).
  { rewrite Hown. unfold JS.seq. now rewrite String.eqb_refl. }
  split.
  - intros Hs3. rewrite Hs3 in Hr. revert Hr. monad_unfold.
    rewrite Ha, Hseq. monad_simpl. rewrite (audioById_exists _ _ _ Ha).
    rewrite <- !app_assoc. cbn [app]. now intros ->.
  - intros e Hs3. rewrite Hs3 in Hr. revert Hr. monad_unfold.
    rewrite Ha, Hseq. monad_simpl.
    rewrite <- !app_assoc. cbn [app]. intros ->. split; [reflexivity|].
    intros He. cbn [fst]. now apply errorHandler_storage.
Qed.

(** Alice deletes her own asset while the storage service is down, then
    while it is up. *)
Lemma delete_blob_before_record_witness :
  audioRoutes.deleteOne Sample.isUUID Sample.envS3Down
    (Sample.byId Sample.asAlice "a1") Sample.world
  = (storageError,
     mkWorld (users Sample.world) (audioFiles Sample.world) (bucket Sample.world)
       [DbAudioFindUnique "a1"; S3DeleteObject "audio/u-alice/t0-song.mp3"])
  /\ audioRoutes.deleteOne Sample.isUUID Sample.env
       (Sample.byId Sample.asAlice "a1") Sample.world
     = (mkResponse 200 (JObj [("message", JStr "Audio file deleted successfully")]),
        mkWorld (users Sample.world) [Sample.talk]
          (delete "audio/u-alice/t0-song.mp3" (bucket Sample.world))
          [DbAudioFindUnique "a1"; S3DeleteObject "audio/u-alice/t0-song.mp3";
           DbAudioDelete "a1"]).
Proof.
  split.
  - destruct (delete_blob_before_record Sample.isUUID Sample.envS3Down
                (Sample.byId Sample.asAlice "a1") Sample.world "a1" Sample.song
                eq_refl eq_refl eq_refl) as [_ H].
    destruct (H Sample.storageDown eq_refl) as [H1 _].
    exact H1.
  - destruct (delete_blob_before_record Sample.isUUID Sample.env
                (Sample.byId Sample.asAlice "a1") Sample.world "a1" Sample.song
                eq_refl eq_refl eq_refl) as [H _].
    exact (H eq_refl).
Defined.

(** ** The duplicate-name probe *)

(** The probe never reads the caller's identity: whoever asks gets the same
    answer. *)
Lemma getCheck_ignores_caller env req w who :
  audioRoutes.getCheck env
    (Req.mk who (Req.params req) (Req.query req) (Req.body req) (Req.file req)
            (Req.errors req)) w
  = audioRoutes.getCheck env req w.
Proof.
  assert (Hpure : Forall pureChain audioRoutes.checkChains).
  { repeat constructor; now exists Validator.NotEmpty. }
  unfold audioRoutes.getCheck, audioController.getAudioFileByName.
  destruct (runAll_pure _ req Hpure) as (-> & _ & _).
  destruct (runAll_pure _ (Req.mk who (Req.params req) (Req.query req) (Req.body req)
                             (Req.file req) (Req.errors req)) Hpure) as (-> & _ & _).
  reflexivity.
Qed.

(** C1 (the code departs from the claim).  Bob, authenticated as himself,
    probes [GET /audio/check/song.mp3/u-alice]: the account identifier is
    taken from the URL and never compared with the caller, so the response
    carries the full record of Alice's asset. *)
Theorem probe_discloses_foreign_asset :
  userId (Req.user Sample.probe) = "u-bob"
  /\ AudioFile.userId Sample.song = "u-alice"
  /\ audioRoutes.getCheck Sample.env Sample.probe Sample.world
     = (mkResponse 200
          (JObj [("message",
                  JStr "This audio file was uploaded previously. Please proceed if you want to re-upload it.");
                 ("audioFile", AudioFile.toJson Sample.song)]),
        logged (DbAudioFindFirst "song.mp3" "u-alice") Sample.world).
Proof. repeat split. Qed.

(** ** Upload validation *)

(** An upload whose title is empty once trimmed is refused by the
    controller's own check, before any downstream call. *)
Lemma upload_empty_title_rejected env req w f :
  Req.file req = Some f ->
  multerConfig.single req = inr req ->
  Validator.trim (Validator.toString (Req.body req !! "title")) = "" ->
  audioRoutes.postUpload env req w
  = (mkResponse 400 (jerror "Title and category are required"), w).
Proof.
  intros Hf Hm Ht. unfold audioRoutes.postUpload. rewrite Hm.
  unfold audioController.uploadAudio.
  destruct (upload_sanitized req) as (Htitle & _ & _).
  rewrite runAll_file, Hf, Htitle, Ht. reflexivity.
Qed.

(** A title of exactly 200 characters is accepted. *)
Lemma upload_title_200_accepted :
  String.length Sample.title200 = 200%nat
  /\ Req.errors (Validator.runAll audioRoutes.uploadChains
                   (Sample.upload Sample.asAlice Sample.title200 "Music")) = []
  /\ status (fst (audioRoutes.postUpload Sample.env
                    (Sample.upload Sample.asAlice Sample.title200 "Music")
                    Sample.world)) = 201%nat.
Proof. vm_compute. repeat split. Qed.

(** C5 (the code departs from the claim).  An upload with category "Jazz",
    which is not in the enumeration: the chain records "Invalid category" on
    the request, [uploadAudio] never reads the validation result, the blob
    is written and a record with category "Jazz" is created and returned
    with 201. *)
Theorem upload_unlisted_category_is_stored :
  JS.arrayIncludes audioRoutes.categories "Jazz" = false
  /\ Req.errors (Validator.runAll audioRoutes.uploadChains
                   (Sample.upload Sample.asAlice "Song" "Jazz"))
     = [mkValidationError InBody "category" "Invalid category"]
  /\ audioRoutes.postUpload Sample.env (Sample.upload Sample.asAlice "Song" "Jazz")
       Sample.world
     = (mkResponse 201
          (AudioFile.toJson
             (uploadedRow Sample.env (Sample.upload Sample.asAlice "Song" "Jazz")
                Sample.mp3 "Song" "Jazz")),
        afterUpload Sample.env (Sample.upload Sample.asAlice "Song" "Jazz") Sample.mp3
          (audioFiles Sample.world
           ++ [uploadedRow Sample.env (Sample.upload Sample.asAlice "Song" "Jazz")
                 Sample.mp3 "Song" "Jazz"])
          Sample.world).
Proof. repeat split. Qed.

(** C6 (the code departs from the claim).  An upload whose title has 201
    characters: the chain records its error on the request, [uploadAudio]
    never reads the validation result, and the record is created with the
    201-character title and returned with 201. *)
Theorem upload_title_201_is_stored :
  String.length Sample.title201 = 201%nat
  /\ Req.errors (Validator.runAll audioRoutes.uploadChains
                   (Sample.upload Sample.asAlice Sample.title201 "Music"))
     = [mkValidationError InBody "title"
          "Title is required and must be less than 200 characters"]
  /\ audioRoutes.postUpload Sample.env
       (Sample.upload Sample.asAlice Sample.title201 "Music") Sample.world
     = (mkResponse 201
          (AudioFile.toJson
             (uploadedRow Sample.env
                (Sample.upload Sample.asAlice Sample.title201 "Music")
                Sample.mp3 Sample.title201 "Music")),
        afterUpload Sample.env (Sample.upload Sample.asAlice Sample.title201 "Music")
          Sample.mp3
          (audioFiles Sample.world
           ++ [uploadedRow Sample.env
                 (Sample.upload Sample.asAlice Sample.title201 "Music")
                 Sample.mp3 Sample.title201 "Music"])
          Sample.world).
Proof. vm_compute. repeat split. Qed.

(** ** Listing *)

#[local] Instance newerFirst_total : Total Prisma.newerFirst.
Proof. intros a b. unfold Prisma.newerFirst. lia. Qed.

#[local] Instance newerFirst_trans : Transitive Prisma.newerFirst.
Proof. intros a b c. unfold Prisma.newerFirst. lia. Qed.

Lemma matchesWhere_listed caller cat a :
  Prisma.matchesWhere caller cat a = true <-> listed caller cat a.
Proof.
  unfold Prisma.matchesWhere, listed. rewrite andb_true_iff, String.eqb_eq.
  destruct cat as [c|].
  - rewrite String.eqb_eq. split.
    + intros [Hu Hc]. split; [exact Hu|]. now intros c' [= <-].
    + intros [Hu Hc]. split; [exact Hu | now apply Hc].
  - split; [intros [Hu _] | intros [Hu _]]; split; auto. intros c' [=].
Qed.

Lemma where_filter caller cat rows :
  List.filter (Prisma.matchesWhere caller cat) rows
  = filter (listed caller cat) rows.
Proof.
  induction rows as [|a rows IH]; [reflexivity|].
  cbn [List.filter]. rewrite filter_cons, IH.
  destruct (Prisma.matchesWhere caller cat a) eqn:Hm.
  - apply matchesWhere_listed in Hm. now rewrite decide_True.
  - rewrite decide_False; [reflexivity|].
    intros H. apply matchesWhere_listed in H. congruence.
Qed.

Lemma listChains_pure : Forall pureChain audioRoutes.listChains.
Proof. repeat constructor. now exists (Validator.IsIn audioRoutes.categories). Qed.

(** Alice's library, unfiltered and filtered, and Bob's. *)
Example listing_sample :
  fst (audioRoutes.getList Sample.env
         (Req.mk Sample.asAlice ∅ ∅ ∅ None []) Sample.world)
  = mkResponse 200 (JArr [AudioFile.toJson Sample.talk; AudioFile.toJson Sample.song])
  /\ fst (audioRoutes.getList Sample.env
            (Req.mk Sample.asAlice ∅ (<["category" := "Music"]> ∅) ∅ None [])
            Sample.world)
     = mkResponse 200 (JArr [AudioFile.toJson Sample.song])
  /\ fst (audioRoutes.getList Sample.env
            (Req.mk Sample.asBob ∅ ∅ ∅ None []) Sample.world)
     = mkResponse 200 (JArr []).
Proof. repeat split. Qed.

(** C7.  For every authenticated identity and every category filter (a
    non-empty [category] query parameter; an absent or empty one is no
    filter), [GET /audio] responds 200 with a list that holds exactly the
    assets owned by that identity, narrowed to the category when a filter is
    given: every such row of the table, each as often as the table has it,
    and nothing else, in one response.  The list is ordered by creation
    time, newest first. *)
Theorem listing_owned_newest_first :
  forall env req w,
    let caller := userId (Req.user req) in
    exists result,
      audioRoutes.getList env req w
      = (mkResponse 200 (JArr (map AudioFile.toJson result)),
         logged (DbAudioFindMany caller (categoryFilter req)) w)
      /\ result ≡ₚ filter (listed caller (categoryFilter req)) (audioFiles w)
      /\ (forall a, a ∈ result <->
                    a ∈ audioFiles w
                    /\ AudioFile.userId a = caller
                    /\ (forall c, Req.query req !! "category" = Some c ->
                                  c <> "" -> AudioFile.category a = c))
      /\ StronglySorted (fun a b => AudioFile.createdAt b <= AudioFile.createdAt a)
                        result.
Proof.
  intros env req w caller.
  exists (merge_sort Prisma.newerFirst
            (filter (listed caller (categoryFilter req)) (audioFiles w))).
  split; [|split; [|split]].
  - unfold audioRoutes.getList, audioController.getUserAudioFiles,
      Prisma.audioFile_findMany.
    destruct (runAll_pure _ req listChains_pure) as (_ & -> & _).
    rewrite runAll_user. fold caller.
    assert (Hf : (if JS.truthy (Req.query req !! "category")
                  then Req.query req !! "category" else None)
                 = categoryFilter req).
    { unfold categoryFilter, JS.truthy.
      destruct (Req.query req !! "category") as [c|]; [|reflexivity].
      now destruct (String.eqb c ""). }
    rewrite Hf. monad_unfold. now rewrite where_filter.
  - apply merge_sort_Permutation.
  - intros a. rewrite merge_sort_Permutation, list_elem_of_filter.
    unfold listed, categoryFilter.
    destruct (Req.query req !! "category") as [c|].
    + destruct (String.eqb c "") eqn:Hc.
      * apply String.eqb_eq in Hc. naive_solver.
      * apply String.eqb_neq in Hc. naive_solver.
    + naive_solver.
  - apply (StronglySorted_merge_sort Prisma.newerFirst).
Qed.

(** ** Storage keys *)

Section Keys.

Lemma length_app (a b : string) :
  String.length (a +:+ b) = (String.length a + String.length b)%nat.
Proof. induction a as [|c a IH]; simpl; [reflexivity | now rewrite IH]. Qed.

(** Cancelling a common suffix. *)
Lemma app_inv_suffix (a b t : string) : a +:+ t = b +:+ t -> a = b.
Proof.
  revert b. induction a as [|c a IH]; intros [|d b] H.
  - reflexivity.
  - apply (f_equal String.length) in H. rewrite !length_app in H. simpl in H. lia.
  - apply (f_equal String.length) in H. rewrite !length_app in H. simpl in H. lia.
  - change (String c (a +:+ t) = String d (b +:+ t)) in H.
    injection H as -> H. f_equal. now apply IH.
Qed.

(** Two strings of the same length followed by anything: the split is
    where the length says. *)
Lemma app_inv_same_length (a b x y : string) :
  String.length a = String.length b -> a +:+ x = b +:+ y -> a = b /\ x = y.
Proof.
  revert b. induction a as [|c a IH]; intros [|d b] Hlen H; simpl in Hlen;
    try discriminate.
  - now split.
  - simpl in H. injection H as -> H. injection Hlen as Hlen.
    destruct (IH b Hlen H) as [-> ->]. now split.
Qed.

(** Two slash-free strings each followed by a slash: the split is at the
    first slash. *)
Lemma app_inv_first_slash (a b x y : string) :
  noSlash a = true -> noSlash b = true ->
  a +:+ String "/"%char x = b +:+ String "/"%char y -> a = b /\ x = y.
Proof.
  revert b. induction a as [|c a IH]; intros [|d b] Ha Hb H; simpl in *.
  - injection H as ->. now split.
  - injection H as <- _. now rewrite Ascii.eqb_refl in Hb.
  - injection H as -> _. now rewrite Ascii.eqb_refl in Ha.
  - injection H as -> H.
    apply andb_true_iff in Ha as [_ Ha]. apply andb_true_iff in Hb as [_ Hb].
    destruct (IH b Ha Hb H) as [-> ->]. now split.
Qed.

Lemma objectKey_same_owner_name u n t1 t2 :
  s3Service.objectKey u t1 n = s3Service.objectKey u t2 n -> t1 = t2.
Proof.
  unfold s3Service.objectKey. intros H.
  do 3 apply String.app_inj in H.
  now apply app_inv_suffix in H.
Qed.

Lemma objectKey_inj u1 u2 t1 t2 n1 n2 :
  noSlash u1 = true -> noSlash u2 = true ->
  String.length t1 = String.length t2 ->
  s3Service.objectKey u1 t1 n1 = s3Service.objectKey u2 t2 n2 ->
  u1 = u2 /\ t1 = t2 /\ n1 = n2.
Proof.
  unfold s3Service.objectKey. intros Hu1 Hu2 Hlen H.
  apply String.app_inj in H.
  change ("/" +:+ ?x) with (String "/"%char x) in H.
  apply app_inv_first_slash in H as [-> H]; [|assumption..].
  apply app_inv_same_length in H as [-> H]; [|assumption].
  apply String.app_inj in H. now subst.
Qed.

End Keys.

(** C8.  An upload's storage key is ["audio/"], the owning account's
    identifier, ["/"], the token drawn by [uuidv4()], ["-"] and the
    original file name.  Two uploads whose tokens differ get different keys
    when owner and file name are the same; and also when they are not,
    given that tokens have one length (as UUIDs do) and account identifiers
    hold no ["/"]. *)
Theorem upload_keys_differ :
  forall env1 env2 file1 file2 user1 user2 w1 w2 r1 r2 w1' w2',
    s3Service.uploadToS3 env1 file1 user1 w1 = (Returned r1, w1') ->
    s3Service.uploadToS3 env2 file2 user2 w2 = (Returned r2, w2') ->
    uuidv4 env1 <> uuidv4 env2 ->
    s3Service.key r1
    = "audio/" +:+ user1 +:+ "/" +:+ uuidv4 env1 +:+ "-" +:+ originalname file1
    /\ s3Service.key r2
       = "audio/" +:+ user2 +:+ "/" +:+ uuidv4 env2 +:+ "-" +:+ originalname file2
    /\ (user1 = user2 -> originalname file1 = originalname file2 ->
        s3Service.key r1 <> s3Service.key r2)
    /\ (noSlash user1 = true -> noSlash user2 = true ->
        String.length (uuidv4 env1) = String.length (uuidv4 env2) ->
        s3Service.key r1 <> s3Service.key r2).
Proof.
  intros env1 env2 file1 file2 user1 user2 w1 w2 r1 r2 w1' w2' H1 H2 Hne.
  assert (K1 : s3Service.key r1
               = s3Service.objectKey user1 (uuidv4 env1) (originalname file1)).
  { revert H1. unfold s3Service.uploadToS3, s3Service.send. monad_unfold.
    destruct (s3Failure env1); [discriminate|]. now intros [= <- _]. }
  assert (K2 : s3Service.key r2
               = s3Service.objectKey user2 (uuidv4 env2) (originalname file2)).
  { revert H2. unfold s3Service.uploadToS3, s3Service.send. monad_unfold.
    destruct (s3Failure env2); [discriminate|]. now intros [= <- _]. }
  repeat split; try assumption.
  - intros -> Hn. rewrite K1, K2, Hn. intros H.
    now apply objectKey_same_owner_name in H.
  - intros Hu1 Hu2 Hlen. rewrite K1, K2. intros H.
    apply objectKey_inj in H as (_ & H & _); auto.
Qed.

(** Alice uploads [x.mp3] twice; the tokens drawn are "tok1" and "tok2". *)
Lemma upload_keys_differ_witness :
  "audio/u-alice/tok1-x.mp3" <> "audio/u-alice/tok2-x.mp3".
Proof.
  pose (env2 := mkEnv "tok2" "a3" 101 "salt" None "bkt" "us-east-1" false).
  destruct (upload_keys_differ Sample.env env2 Sample.mp3 Sample.mp3
              "u-alice" "u-alice" Sample.world Sample.world
              _ _ _ _ eq_refl eq_refl) as (_ & _ & H & _).
  - discriminate.
  - exact (H eq_refl eq_refl).
Defined.

(** ** Account update *)

Lemma run_errors c r :
  Req.errors (Validator.run c r)
  = Req.errors r
    ++ replicate (failures c (Req.get (Validator.loc c) (Validator.field c) r))
                 (errorOf c).
Proof.
  unfold Validator.run, failures, errorOf.
  destruct (_ && _); [now rewrite app_nil_r|].
  destruct (Validator.runSteps _ _) as [v' k]. cbn [snd].
  rewrite iter_addError_errors. f_equal.
  destruct v' as [x|]; [|reflexivity].
  destruct (Validator.sameValue _ _); [reflexivity|].
  now destruct (Validator.loc c).
Qed.

Section AccountUpdate.
Variable isEmail : string -> bool.
Variable bcrypt_hash : string -> string -> string.

Lemma updateChains_pure : Forall pureChain (userRoutes.updateChains isEmail).
Proof.
  repeat constructor.
  - now exists (Validator.IsLength 3 None).
  - now exists (Validator.Check isEmail).
  - now exists (Validator.IsLength 6 None).
Qed.

(** A request without validation errors carries, when it carries them, a
    username of at least 3 characters and a password of at least 6. *)
Lemma update_valid req :
  Req.errors (Validator.runAll (userRoutes.updateChains isEmail) req) = [] ->
  (forall n, Req.body req !! "username" = Some n -> n <> "")
  /\ (forall p, Req.body req !! "password" = Some p -> p <> "").
Proof.
  unfold Validator.runAll, userRoutes.updateChains. cbn [fold_left].
  rewrite !run_errors. cbn [Validator.loc Validator.field].
  rewrite !run_get. cbn [Validator.loc Validator.field sameLocation andb String.eqb
                         Ascii.eqb Bool.eqb].
  intros H.
  apply app_eq_nil in H as [H H3]. apply app_eq_nil in H as [H H2].
  apply app_eq_nil in H as [_ H1].
  unfold failures in H1, H3.
  cbn [Validator.optional Validator.steps Validator.runSteps Validator.runStep
       andb negb snd] in H1, H3.
  cbn [Req.get] in H1, H3.
  split.
  - intros n Hn. rewrite Hn in H1.
    cbn [Validator.defined Validator.toString default from_option Datatypes.id
         negb] in H1.
    destruct (Validator.isLength 3 None n) eqn:Hlen; [|discriminate].
    exact (isLength_nonempty _ _ _ Hlen).
  - intros p Hp. rewrite Hp in H3.
    cbn [Validator.defined Validator.toString default from_option Datatypes.id
         negb] in H3.
    destruct (Validator.isLength 6 None p) eqn:Hlen; [|discriminate].
    exact (isLength_nonempty _ _ _ Hlen).
Qed.

Lemma updateData_runAll env req :
  userController.updateData bcrypt_hash env
    (Validator.runAll (userRoutes.updateChains isEmail) req)
  = userController.updateData bcrypt_hash env req.
Proof.
  unfold userController.updateData.
  now destruct (runAll_pure _ req updateChains_pure) as (_ & _ & ->).
Qed.

(** What an update does to one row, whatever the row. *)
Lemma applyUpdate_frame env req o :
  let o' := Prisma.applyUpdate env (userController.updateData bcrypt_hash env req) o in
  User.id o' = User.id o
  /\ User.createdAt o' = User.createdAt o
  /\ (Req.body req !! "username" = None -> User.username o' = User.username o)
  /\ (Req.body req !! "email" = None -> User.email o' = User.email o)
  /\ (Req.body req !! "password" = None -> User.password o' = User.password o).
Proof.
  unfold Prisma.applyUpdate, userController.updateData. cbn.
  repeat split; intros ->; reflexivity.
Qed.

Lemma applyUpdate_supplied env req o :
  let o' := Prisma.applyUpdate env (userController.updateData bcrypt_hash env req) o in
  (forall n, Req.body req !! "username" = Some n -> n <> "" -> User.username o' = n)
  /\ (forall p, Req.body req !! "password" = Some p -> p <> "" ->
                User.password o' = bcrypt_hash p (salt env))
  /\ (forall e, Req.body req !! "email" = Some e -> e <> "" -> User.email o' = Some e).
Proof.
  unfold Prisma.applyUpdate, userController.updateData. cbn.
  repeat split; intros x -> Hx; apply String.eqb_neq in Hx;
    cbn; rewrite Hx; reflexivity.
Qed.

End AccountUpdate.

(** C9, as stated, fails twice: an update addressed to another account
    whose body does not pass validation is answered 400, not 403; and an
    update of one's own secret alone changes a field the request does not
    supply, the update timestamp. *)
Lemma update_claim_as_stated_fails :
  ~ (forall isEmail bcrypt_hash env req w id,
       Req.params req !! "id" = Some id ->
       id <> userId (Req.user req) ->
       status (fst (userRoutes.putUser isEmail bcrypt_hash env req w)) = 403%nat)
  /\ ~ (forall isEmail bcrypt_hash env req w id u u',
          Req.params req !! "id" = Some id ->
          id = userId (Req.user req) ->
          In u (users w) ->
          In u' (users (snd (userRoutes.putUser isEmail bcrypt_hash env req w))) ->
          User.id u' = User.id u ->
          User.updatedAt u' = User.updatedAt u).
Proof.
  split; intros H.
  - specialize (H Sample.isEmail Sample.bcrypt_hash Sample.env Sample.renameAlice
                  Sample.world "u-alice" eq_refl).
    assert (Hne : "u-alice" <> userId (Req.user Sample.renameAlice)) by discriminate.
    specialize (H Hne). vm_compute in H. discriminate.
  - specialize (H Sample.isEmail Sample.bcrypt_hash Sample.env Sample.newPassword
                  Sample.world "u-alice" Sample.alice
                  (Prisma.applyUpdate Sample.env
                     (userController.updateData Sample.bcrypt_hash Sample.env
                        Sample.newPassword)
                     Sample.alice)
                  eq_refl eq_refl).
    assert (Hin : In Sample.alice (users Sample.world)) by (simpl; auto).
    assert (Hin' : In (Prisma.applyUpdate Sample.env
                         (userController.updateData Sample.bcrypt_hash Sample.env
                            Sample.newPassword)
                         Sample.alice)
                     (users (snd (userRoutes.putUser Sample.isEmail Sample.bcrypt_hash
                                    Sample.env Sample.newPassword Sample.world))))
      by (vm_compute; auto).
    specialize (H Hin Hin' eq_refl). vm_compute in H. discriminate.
Qed.

(** C9, amended.  For every account-update request ([PUT /users/:id]):
    when its body fails the route's validation it is answered 400 and
    nothing changes, whatever its target; when the body passes and the
    target differs from the caller it is answered 403 and nothing changes;
    when the body passes and the target is the caller, assets and bucket
    are untouched, every account other than the target is unchanged, and on
    the target the identifier, the creation time and each of display name,
    contact address and secret that the request does not supply keep their
    values; when this update succeeds (200) the target carries the supplied
    display name and contact address, as its secret the hash of the supplied
    one, and as its update timestamp the time of the update. *)
Theorem account_update_frame :
  forall isEmail bcrypt_hash env req w id,
    Req.params req !! "id" = Some id ->
    let r := userRoutes.putUser isEmail bcrypt_hash env req w in
    let errs := Req.errors (Validator.runAll (userRoutes.updateChains isEmail) req) in
    (errs <> [] -> status (fst r) = 400%nat /\ snd r = w)
    /\ (errs = [] -> id <> userId (Req.user req) ->
        r = (mkResponse 403 (jerror "Forbidden"), w))
    /\ (errs = [] -> id = userId (Req.user req) ->
        audioFiles (snd r) = audioFiles w
        /\ bucket (snd r) = bucket w
        /\ Forall2
             (fun u u' =>
                User.id u' = User.id u
                /\ User.createdAt u' = User.createdAt u
                /\ (User.id u <> id -> u' = u)
                /\ (Req.body req !! "username" = None ->
                    User.username u' = User.username u)
                /\ (Req.body req !! "email" = None -> User.email u' = User.email u)
                /\ (Req.body req !! "password" = None ->
                    User.password u' = User.password u))
             (users w) (users (snd r))
        /\ (status (fst r) = 200%nat ->
            forall u', In u' (users (snd r)) -> User.id u' = id ->
              (forall n, Req.body req !! "username" = Some n -> User.username u' = n)
              /\ (forall p, Req.body req !! "password" = Some p ->
                            User.password u' = bcrypt_hash p (salt env))
              /\ (forall e, Req.body req !! "email" = Some e -> e <> "" ->
                            User.email u' = Some e)
              /\ User.updatedAt u' = now env)).
Proof.
  intros isEmail bcrypt_hash env req w id Hid r errs.
  subst r. unfold userRoutes.putUser, userController.updateUser.
  fold errs.
  destruct (runAll_pure _ req (updateChains_pure isEmail)) as (Hp & _ & _).
  rewrite Hp, Hid, runAll_user, updateData_runAll. clear Hp.
  split; [|split].
  - intros Hne. destruct errs; [contradiction | split; reflexivity].
  - intros -> Hne. cbn [isEmpty negb].
    assert (Hs : negb (JS.seq (userId (Req.user req)) id) = true).
    { unfold JS.seq. apply negb_true_iff, String.eqb_neq. congruence. }
    monad_unfold. now rewrite Hs.
  - intros Herrs Hown.
    destruct (update_valid isEmail req Herrs) as [Hname Hpass].
    unfold errs in *. rewrite Herrs. cbn [isEmpty negb].
    assert (Hs : negb (JS.seq (userId (Req.user req)) id) = false).
    { unfold JS.seq. rewrite <- Hown. now rewrite String.eqb_refl. }
    unfold Prisma.user_update. monad_unfold. rewrite Hs.
    assert (Hrefl : Forall2
             (fun u u' =>
                User.id u' = User.id u
                /\ User.createdAt u' = User.createdAt u
                /\ (User.id u <> id -> u' = u)
                /\ (Req.body req !! "username" = None ->
                    User.username u' = User.username u)
                /\ (Req.body req !! "email" = None -> User.email u' = User.email u)
                /\ (Req.body req !! "password" = None ->
                    User.password u' = User.password u))
             (users w) (users w)).
    { apply Forall_Forall2_diag, Forall_forall. intros; repeat split; auto. }
    destruct (Prisma.userById id (users w)) as [u|].
    2:{ cbn. do 3 (split; [easy|]). discriminate. }
    destruct (existsb _ (users w)).
    { cbn. do 3 (split; [easy|]). discriminate. }
    cbn [fst snd users audioFiles bucket status].
    do 2 (split; [reflexivity|]). split.
    + apply Forall2_fmap_r, Forall_Forall2_diag, Forall_forall. intros o _.
      unfold compose. cbn beta. destruct (String.eqb (User.id o) id) eqn:Ho.
      * destruct (applyUpdate_frame bcrypt_hash env req o) as (H1 & H2 & H3 & H4 & H5).
        apply String.eqb_eq in Ho. repeat split; auto. intros; contradiction.
      * repeat split; auto.
    + intros _ u' Hin Hu'.
      apply in_map_iff in Hin as (o & Ho & Hin).
      destruct (String.eqb (User.id o) id) eqn:Hoid.
      2:{ subst u'. apply String.eqb_neq in Hoid. contradiction. }
      subst u'.
      destruct (applyUpdate_supplied bcrypt_hash env req o) as (H1 & H2 & H3).
      split; [|split; [|split]].
      * intros n Hn. apply H1; [exact Hn | now apply Hname].
      * intros p Hp. apply H2; [exact Hp | now apply Hpass].
      * exact H3.
      * reflexivity.
Qed.

(** Bob addresses Alice's account, first with a username that is too
    short, then with a well-formed one; Alice changes her own password. *)
Lemma account_update_frame_witness :
  (status (fst (userRoutes.putUser Sample.isEmail Sample.bcrypt_hash Sample.env
                  Sample.renameAlice Sample.world)) = 400%nat
   /\ snd (userRoutes.putUser Sample.isEmail Sample.bcrypt_hash Sample.env
             Sample.renameAlice Sample.world) = Sample.world)
  /\ userRoutes.putUser Sample.isEmail Sample.bcrypt_hash Sample.env
       Sample.takeOverAlice Sample.world
     = (mkResponse 403 (jerror "Forbidden"), Sample.world)
  /\ (forall u',
        In u' (users (snd (userRoutes.putUser Sample.isEmail Sample.bcrypt_hash
                             Sample.env Sample.newPassword Sample.world))) ->
        User.id u' = "u-alice" ->
        User.password u' = Sample.bcrypt_hash "hunter22" "salt"
        /\ User.updatedAt u' = 100).
Proof.
  split; [|split].
  - destruct (account_update_frame Sample.isEmail Sample.bcrypt_hash Sample.env
                Sample.renameAlice Sample.world "u-alice" eq_refl) as (H & _ & _).
    apply H. vm_compute. discriminate.
  - destruct (account_update_frame Sample.isEmail Sample.bcrypt_hash Sample.env
                Sample.takeOverAlice Sample.world "u-alice" eq_refl) as (_ & H & _).
    apply H; [vm_compute; reflexivity | discriminate].
  - intros u' Hin Hid.
    destruct (account_update_frame Sample.isEmail Sample.bcrypt_hash Sample.env
                Sample.newPassword Sample.world "u-alice" eq_refl) as (_ & _ & H).
    assert (Herrs : Req.errors (Validator.runAll
                                  (userRoutes.updateChains Sample.isEmail)
                                  Sample.newPassword) = [])
      by (vm_compute; reflexivity).
    destruct (H Herrs eq_refl) as (_ & _ & _ & Hok).
    assert (Hst : status (fst (userRoutes.putUser Sample.isEmail Sample.bcrypt_hash
                                 Sample.env Sample.newPassword Sample.world))
                  = 200%nat)
      by (vm_compute; reflexivity).
    destruct (Hok Hst u' Hin Hid) as (_ & Hp & _ & Ht).
    split; [apply Hp; reflexivity | exact Ht].
Defined.

(** ** Responses and the stored secret *)

Section PublicView.

Lemma publicView_fields u1 u2 :
  publicView u1 = publicView u2 ->
  User.id u1 = User.id u2
  /\ User.username u1 = User.username u2
  /\ User.email u1 = User.email u2
  /\ User.createdAt u1 = User.createdAt u2
  /\ User.updatedAt u1 = User.updatedAt u2.
Proof. unfold publicView. intros [= -> -> -> -> ->]. repeat split. Qed.

(** A search that only looks at public fields finds rows with the same
    public fields in both tables. *)
Lemma find_public (f : User.t -> bool) l1 l2 :
  (forall u1 u2, publicView u1 = publicView u2 -> f u1 = f u2) ->
  map publicView l1 = map publicView l2 ->
  publicView <$> List.find f l1 = publicView <$> List.find f l2.
Proof.
  intros Hf. revert l2.
  induction l1 as [|u1 l1 IH]; intros [|u2 l2] H; try discriminate; [reflexivity|].
  assert (Hu : publicView u1 = publicView u2)
    by exact (f_equal (fun l => match l with x :: _ => x | [] => publicView u1 end) H).
  assert (Hl : map publicView l1 = map publicView l2) by exact (f_equal (@tail _) H).
  cbn [List.find].
  rewrite (Hf u1 u2 Hu). destruct (f u2); [cbn; now rewrite Hu | now apply IH].
Qed.

Lemma existsb_public (f g : User.t -> bool) l1 l2 :
  (forall u1 u2, publicView u1 = publicView u2 -> f u1 = g u2) ->
  map publicView l1 = map publicView l2 ->
  existsb f l1 = existsb g l2.
Proof.
  intros Hf. revert l2.
  induction l1 as [|u1 l1 IH]; intros [|u2 l2] H; try discriminate; [reflexivity|].
  assert (Hu : publicView u1 = publicView u2)
    by exact (f_equal (fun l => match l with x :: _ => x | [] => publicView u1 end) H).
  assert (Hl : map publicView l1 = map publicView l2) by exact (f_equal (@tail _) H).
  cbn [existsb].
  now rewrite (Hf u1 u2 Hu), (IH l2 Hl).
Qed.

Lemma userById_public id w1 w2 :
  samePublic w1 w2 ->
  publicView <$> Prisma.userById id (users w1)
  = publicView <$> Prisma.userById id (users w2).
Proof.
  intros H. apply find_public; [|exact H].
  intros u1 u2 Hu. apply publicView_fields in Hu as (-> & _). reflexivity.
Qed.

Lemma session_no_password token u :
  hasKey "password" (authController.session token u) = false.
Proof. unfold authController.session. cbn. now destruct (User.email u). Qed.

Lemma selected_no_password c u :
  hasKey "password"
    (Prisma.selected (Prisma.mkSelect true true false true c true) u) = false.
Proof. unfold Prisma.selected. destruct c; cbn; now destruct (User.email u). Qed.

Lemma session_public token u1 u2 :
  publicView u1 = publicView u2 ->
  authController.session token u1 = authController.session token u2.
Proof.
  intros H. apply publicView_fields in H as (H1 & H2 & H3 & _).
  unfold authController.session. now rewrite H1, H2, H3.
Qed.

Lemma selected_public c u1 u2 :
  publicView u1 = publicView u2 ->
  Prisma.selected (Prisma.mkSelect true true false true c true) u1
  = Prisma.selected (Prisma.mkSelect true true false true c true) u2.
Proof.
  intros H. apply publicView_fields in H as (H1 & H2 & H3 & H4 & H5).
  unfold Prisma.selected. cbn. now rewrite H1, H2, H3, H4, H5.
Qed.

End PublicView.

Section Secrets.
Variable isEmail : string -> bool.
Variable jwt_sign : string -> string -> Z -> string.

(** A successful login answers with the session of the account found. *)
Lemma login_success bcrypt_compare env req w :
  let r := fst (authRoutes.postLogin bcrypt_compare jwt_sign env req w) in
  success r ->
  exists u,
    List.find (fun u => String.eqb (User.username u)
                          (default "" (Req.body (Validator.runAll authRoutes.loginChains req)
                                       !! "username")))
              (users w) = Some u
    /\ r = mkResponse 200
             (authController.session
                (jwt_sign (User.id u) (User.username u) (now env)) u).
Proof.
  unfold authRoutes.postLogin, authController.login, success,
    Prisma.user_findUnique_username.
  destruct (negb (isEmpty _)).
  { monad_unfold. cbn. intros [H|H]; discriminate. }
  monad_unfold.
  destruct (List.find _ (users w)) as [u|].
  2:{ cbn. intros [H|H]; discriminate. }
  destruct (negb (bcrypt_compare _ _)).
  { cbn. intros [H|H]; discriminate. }
  cbn. intros _. now exists u.
Qed.

Lemma login_independent compare1 compare2 env req w1 w2 :
  samePublic w1 w2 ->
  let r1 := fst (authRoutes.postLogin compare1 jwt_sign env req w1) in
  let r2 := fst (authRoutes.postLogin compare2 jwt_sign env req w2) in
  success r1 -> success r2 -> r1 = r2.
Proof.
  intros Hw r1 r2 H1 H2.
  destruct (login_success compare1 env req w1 H1) as (u1 & Hf1 & E1).
  destruct (login_success compare2 env req w2 H2) as (u2 & Hf2 & E2).
  fold r1 in E1. fold r2 in E2. rewrite E1, E2.
  assert (Hu : publicView u1 = publicView u2).
  { pose proof (find_public
        (fun u => String.eqb (User.username u)
                    (default "" (Req.body (Validator.runAll authRoutes.loginChains req)
                                 !! "username")))
        (users w1) (users w2)) as Hp.
    rewrite Hf1, Hf2 in Hp. cbn in Hp.
    cut (Some (publicView u1) = Some (publicView u2)); [congruence|].
    apply Hp; [|exact Hw].
    intros a b Hab. apply publicView_fields in Hab as (_ & -> & _). reflexivity. }
  rewrite (session_public _ u1 u2 Hu).
  apply publicView_fields in Hu as (-> & -> & _). reflexivity.
Qed.

Lemma register_success bcrypt_hash env req w :
  let r := fst (authRoutes.postRegister isEmail bcrypt_hash jwt_sign env req w) in
  success r ->
  exists u token, r = mkResponse 201 (authController.session token u).
Proof.
  unfold authRoutes.postRegister, authController.register, success, Prisma.user_create.
  destruct (negb (isEmpty _)).
  { monad_unfold. cbn. intros [H|H]; discriminate. }
  monad_unfold.
  destruct (existsb _ (users w)).
  { cbn. intros [H|H]; discriminate. }
  cbn. intros _. eauto.
Qed.

Lemma register_independent hash1 hash2 env req w1 w2 :
  samePublic w1 w2 ->
  fst (authRoutes.postRegister isEmail hash1 jwt_sign env req w1)
  = fst (authRoutes.postRegister isEmail hash2 jwt_sign env req w2).
Proof.
  intros Hw.
  unfold authRoutes.postRegister, authController.register, Prisma.user_create.
  destruct (negb (isEmpty _)); [reflexivity|].
  monad_unfold.
  set (q := Validator.runAll (authRoutes.registerChains isEmail) req).
  rewrite (existsb_public
             (fun u => String.eqb (User.id u) (dbUuid env)
                       || String.eqb (User.username u)
                                     (default "" (Req.body q !! "username"))
                       || Prisma.sameEmail (User.email u)
                                           (JS.orNull (Req.body q !! "email")))
             (fun u => String.eqb (User.id u) (dbUuid env)
                       || String.eqb (User.username u)
                                     (default "" (Req.body q !! "username"))
                       || Prisma.sameEmail (User.email u)
                                           (JS.orNull (Req.body q !! "email")))
             (users w1) (users w2)); [| |exact Hw].
  - destruct (existsb _ (users w2)); reflexivity.
  - intros a b Hab. apply publicView_fields in Hab as (-> & -> & -> & _). reflexivity.
Qed.

Lemma getMe_success env req w :
  let r := fst (userRoutes.getMe env req w) in
  success r ->
  exists u, r = mkResponse 200
                  (Prisma.selected (Prisma.mkSelect true true false true true true) u).
Proof.
  unfold userRoutes.getMe, userController.getCurrentUser, success,
    Prisma.user_findUnique_id.
  monad_unfold.
  destruct (Prisma.userById _ (users w)) as [u|].
  - cbn. intros _. now exists u.
  - cbn. intros [H|H]; discriminate.
Qed.

Lemma getMe_independent env req w1 w2 :
  samePublic w1 w2 ->
  fst (userRoutes.getMe env req w1) = fst (userRoutes.getMe env req w2).
Proof.
  intros Hw.
  unfold userRoutes.getMe, userController.getCurrentUser, Prisma.user_findUnique_id.
  monad_unfold.
  pose proof (userById_public (userId (Req.user req)) w1 w2 Hw) as Hp.
  destruct (Prisma.userById _ (users w1)) as [u1|],
           (Prisma.userById _ (users w2)) as [u2|]; cbn in Hp; try discriminate.
  - cbn. assert (Hu : publicView u1 = publicView u2) by congruence.
    now rewrite (selected_public true u1 u2 Hu).
  - reflexivity.
Qed.

Lemma putUser_success bcrypt_hash env req w :
  let r := fst (userRoutes.putUser isEmail bcrypt_hash env req w) in
  success r ->
  exists u, r = mkResponse 200
                  (Prisma.selected (Prisma.mkSelect true true false true false true) u).
Proof.
  unfold userRoutes.putUser, userController.updateUser, success, Prisma.user_update.
  destruct (negb (isEmpty _)).
  { monad_unfold. cbn. intros [H|H]; discriminate. }
  destruct (negb (JS.seq _ _)).
  { monad_unfold. cbn. intros [H|H]; discriminate. }
  monad_unfold.
  destruct (Prisma.userById _ (users w)) as [u|].
  2:{ cbn. intros [H|H]; discriminate. }
  destruct (existsb _ (users w)).
  { cbn. intros [H|H]; discriminate. }
  cbn. intros _. eauto.
Qed.

Lemma putUser_independent hash1 hash2 env req w1 w2 :
  samePublic w1 w2 ->
  fst (userRoutes.putUser isEmail hash1 env req w1)
  = fst (userRoutes.putUser isEmail hash2 env req w2).
Proof.
  intros Hw.
  unfold userRoutes.putUser, userController.updateUser, Prisma.user_update.
  destruct (negb (isEmpty _)); [reflexivity|].
  destruct (negb (JS.seq _ _)); [reflexivity|].
  monad_unfold.
  set (q := Validator.runAll (userRoutes.updateChains isEmail) req).
  set (id := default "" (Req.params q !! "id")).
  pose proof (userById_public id w1 w2 Hw) as Hp.
  destruct (Prisma.userById id (users w1)) as [u1|],
           (Prisma.userById id (users w2)) as [u2|]; cbn in Hp; try discriminate;
    [|reflexivity].
  assert (Hu : publicView u1 = publicView u2) by congruence. clear Hp.
  rewrite (existsb_public
             (fun o => negb (String.eqb (User.id o) id)
                       && (match UserUpdate.username (userController.updateData hash1 env q) with
                           | Some n => String.eqb (User.username o) n
                           | None => false
                           end
                           || Prisma.sameEmail (User.email o)
                                (UserUpdate.email (userController.updateData hash1 env q))))
             (fun o => negb (String.eqb (User.id o) id)
                       && (match UserUpdate.username (userController.updateData hash2 env q) with
                           | Some n => String.eqb (User.username o) n
                           | None => false
                           end
                           || Prisma.sameEmail (User.email o)
                                (UserUpdate.email (userController.updateData hash2 env q))))
             (users w1) (users w2)); [| |exact Hw].
  - destruct (existsb _ (users w2)); [reflexivity|]. cbn [fst].
    f_equal. apply selected_public.
    apply publicView_fields in Hu as (H1 & H2 & H3 & H4 & H5).
    unfold publicView, Prisma.applyUpdate, userController.updateData. cbn.
    now rewrite H1, H2, H3, H4.
  - intros a b Hab. apply publicView_fields in Hab as (-> & -> & -> & _). reflexivity.
Qed.

End Secrets.

(** C10.  A successful response (200 or 201) of register, login,
    get-current-user and account-update has no [password] key at any depth,
    and it does not depend on the stored hashes: run on two worlds whose
    accounts agree on identifier, username, email and timestamps, with any
    two hashing functions, register, get-current-user and account-update
    give the same response, and so does login whenever it succeeds in
    both. *)
Theorem responses_exclude_password_hash :
  forall isEmail jwt_sign compare1 compare2 hash1 hash2 env req w1 w2,
    samePublic w1 w2 ->
    let login1 := fst (authRoutes.postLogin compare1 jwt_sign env req w1) in
    let login2 := fst (authRoutes.postLogin compare2 jwt_sign env req w2) in
    let register1 := fst (authRoutes.postRegister isEmail hash1 jwt_sign env req w1) in
    let register2 := fst (authRoutes.postRegister isEmail hash2 jwt_sign env req w2) in
    let me1 := fst (userRoutes.getMe env req w1) in
    let me2 := fst (userRoutes.getMe env req w2) in
    let update1 := fst (userRoutes.putUser isEmail hash1 env req w1) in
    let update2 := fst (userRoutes.putUser isEmail hash2 env req w2) in
    (forall r, In r [login1; register1; me1; update1] ->
               success r -> hasKey "password" (body r) = false)
    /\ (success login1 -> success login2 -> login1 = login2)
    /\ register1 = register2
    /\ me1 = me2
    /\ update1 = update2.
Proof.
  intros isEmail jwt_sign compare1 compare2 hash1 hash2 env req w1 w2 Hw.
  cbn zeta. split; [|split; [|split; [|split]]].
  - intros r Hr Hs. cbn [In] in Hr.
    destruct Hr as [<- | [<- | [<- | [<- | []]]]].
    + destruct (login_success jwt_sign compare1 env req w1 Hs) as (u & _ & ->).
      apply session_no_password.
    + destruct (register_success isEmail jwt_sign hash1 env req w1 Hs) as (u & t & ->).
      apply session_no_password.
    + destruct (getMe_success env req w1 Hs) as (u & ->).
      apply selected_no_password.
    + destruct (putUser_success isEmail hash1 env req w1 Hs) as (u & ->).
      apply selected_no_password.
  - now apply login_independent.
  - now apply register_independent.
  - now apply getMe_independent.
  - now apply putUser_independent.
Qed.

(** Alice logs in against two databases that store different hashes of
    her password. *)
Lemma responses_exclude_password_hash_witness :
  hasKey "password"
    (body (fst (authRoutes.postLogin Sample.bcrypt_compare Sample.jwt_sign
                  Sample.env Sample.loginAlice Sample.world))) = false
  /\ fst (authRoutes.postLogin Sample.bcrypt_compare Sample.jwt_sign
            Sample.env Sample.loginAlice Sample.world)
     = fst (authRoutes.postLogin Sample.bcrypt_compare Sample.jwt_sign
              Sample.env Sample.loginAlice Sample.rehashed).
Proof.
  destruct (responses_exclude_password_hash Sample.isEmail Sample.jwt_sign
              Sample.bcrypt_compare Sample.bcrypt_compare
              Sample.bcrypt_hash Sample.bcrypt_hash
              Sample.env Sample.loginAlice Sample.world Sample.rehashed eq_refl)
    as (Hkey & Hlogin & _).
  split.
  - apply Hkey; [cbn; auto | left; reflexivity].
  - apply Hlogin; left; reflexivity.
Defined.

(** * Further properties of the backend and the client *)

(** ** The error handler *)

(** X1.  Whatever error reaches [errorHandler], the body it sends is an
    object whose first field is a string [error]; and outside development
    no [stack] key occurs in it at any depth. *)
Theorem errorHandler_structured_no_stack :
  forall dev e,
    (exists m rest, body (errorHandler dev e) = JObj (("error", JStr m) :: rest))
    /\ hasKey "stack" (body (errorHandler false e)) = false.
Proof.
  intros dev e. unfold errorHandler.
  split.
  - repeat match goal with
           | |- context [if ?b then _ else _] => destruct b
           end; cbn [body]; eauto.
  - repeat match goal with
           | |- context [if ?b then _ else _] => destruct b
           end; reflexivity.
Qed.

(** ** The authentication middleware *)

Lemma startsWith_app p t : JS.startsWith p (p +:+ t) = true.
Proof.
  induction p as [|c p IH]; [now destruct t|].
  change (String c p +:+ t) with (String c (p +:+ t)). cbn.
  now rewrite Ascii.eqb_refl, IH.
Qed.

Lemma startsWith_split p s :
  JS.startsWith p s = true ->
  s = p +:+ authMiddleware.substring (String.length p) s.
Proof.
  revert s. induction p as [|c p IH]; intros s H; [reflexivity|].
  destruct s as [|d s]; [discriminate|]. cbn in H.
  apply andb_true_iff in H as [Hc H]. apply Ascii.eqb_eq in Hc. subst d.
  change (String c p +:+ ?x) with (String c (p +:+ x)). cbn [String.length authMiddleware.substring].
  f_equal. now apply IH.
Qed.

Lemma substring_app p t : authMiddleware.substring (String.length p) (p +:+ t) = t.
Proof.
  induction p as [|c p IH]; [now destruct t|].
  change (String c p +:+ t) with (String c (p +:+ t)). exact IH.
Qed.

Lemma bearer_accepted jwt_verify token u :
  jwt_verify token = Some u ->
  authMiddleware.run jwt_verify (Some ("Bearer " +:+ token)) = inr u.
Proof.
  intros Hv. unfold authMiddleware.run. cbn [default from_option Datatypes.id].
  rewrite (startsWith_app "Bearer " token).
  assert (Ht : JS.truthy (Some ("Bearer " +:+ token)) = true) by reflexivity.
  rewrite Ht. cbn [negb orb].
  change 7%nat with (String.length "Bearer ").
  now rewrite substring_app, Hv.
Qed.

(** X2.  The middleware lets a request through with identity [u] exactly
    when its [Authorization] header is ["Bearer "] followed by a token
    that [jwt.verify] decodes to [u]; every other request is answered
    401. *)
Theorem authMiddleware_passes_verified_bearer_only :
  forall jwt_verify header,
    (forall u,
       authMiddleware.run jwt_verify header = inr u
       <-> exists token, header = Some ("Bearer " +:+ token)
                         /\ jwt_verify token = Some u)
    /\ (forall r, authMiddleware.run jwt_verify header = inl r -> status r = 401%nat).
Proof.
  intros jwt_verify header. split.
  - intros u. unfold authMiddleware.run. split.
    + destruct (negb (JS.truthy header)
                || negb (JS.startsWith "Bearer " (default "" header))) eqn:Hh;
        [discriminate|].
      apply orb_false_iff in Hh as [Ht Hs].
      apply negb_false_iff in Ht, Hs.
      destruct header as [h|]; [|discriminate]. cbn [default from_option Datatypes.id] in *.
      destruct (jwt_verify _) as [d|] eqn:Hv; [|discriminate].
      intros [= <-]. exists (authMiddleware.substring 7 h).
      split; [|exact Hv]. f_equal. exact (startsWith_split "Bearer " h Hs).
    + intros (token & -> & Hv). now apply bearer_accepted.
  - intros r. unfold authMiddleware.run.
    destruct (_ || _); [now intros [= <-]|].
    destruct (jwt_verify _); [discriminate | now intros [= <-]].
Qed.

(** ** Chains of validators only *)

Lemma run_pure_get c r l k :
  pureChain c -> Req.get l k (Validator.run c r) = Req.get l k r.
Proof.
  intros Hc. destruct (run_pure c r Hc) as [n ->]. apply iter_addError_get.
Qed.

Lemma runAll_pure_get cs r l k :
  Forall pureChain cs -> Req.get l k (Validator.runAll cs r) = Req.get l k r.
Proof.
  unfold Validator.runAll. intros H. revert r.
  induction H as [|c cs Hc _ IH]; intros r; cbn [fold_left]; [reflexivity|].
  now rewrite IH, run_pure_get.
Qed.

(** The errors such chains leave: for each chain in turn, one per failed
    validator on the value the request came with. *)
Lemma runAll_pure_errors cs r :
  Forall pureChain cs ->
  Req.errors (Validator.runAll cs r)
  = Req.errors r
    ++ flat_map (fun c => replicate
                            (failures c (Req.get (Validator.loc c) (Validator.field c) r))
                            (errorOf c)) cs.
Proof.
  unfold Validator.runAll. intros H. revert r.
  induction H as [|c cs Hc Hcs IH]; intros r; cbn [fold_left flat_map].
  - now rewrite app_nil_r.
  - rewrite IH, run_errors, <- app_assoc. do 2 f_equal.
    apply flat_map_ext. intros c'. now rewrite run_pure_get.
Qed.

Lemma loginChains_pure : Forall pureChain authRoutes.loginChains.
Proof. repeat constructor; now exists Validator.NotEmpty. Qed.

Lemma registerChains_pure isEmail : Forall pureChain (authRoutes.registerChains isEmail).
Proof.
  repeat constructor.
  - now exists (Validator.IsLength 3 None).
  - now exists (Validator.IsLength 6 None).
  - now exists (Validator.Check isEmail).
Qed.

Lemma one_error_nil (b : bool) (e : ValidationError) :
  replicate (if b then 0%nat else 1%nat) e = [] <-> b = true.
Proof. destruct b; cbn; split; congruence. Qed.

(** When the register chains leave no error. *)
Lemma register_errors isEmail req :
  Req.errors (Validator.runAll (authRoutes.registerChains isEmail) req) = []
  <-> Req.errors req = []
      /\ Validator.isLength 3 None
           (Validator.toString (Req.body req !! "username")) = true
      /\ Validator.isLength 6 None
           (Validator.toString (Req.body req !! "password")) = true
      /\ (forall e, Req.body req !! "email" = Some e -> isEmail e = true).
Proof.
  rewrite (runAll_pure_errors _ req (registerChains_pure isEmail)).
  unfold authRoutes.registerChains, failures. cbn [flat_map Validator.loc Validator.field
    Validator.optional Validator.steps Req.get andb negb].
  cbn [Validator.runSteps Validator.runStep snd].
  rewrite app_nil_r.
  rewrite !app_nil, !one_error_nil.
  destruct (Req.body req !! "email") as [e|];
    cbn [Validator.defined negb Validator.toString default from_option Datatypes.id snd].
  - rewrite one_error_nil. split.
    + intros (? & ? & ? & ?). repeat split; auto. now intros ? [= <-].
    + intros (? & ? & ? & He). repeat split; auto.
  - split.
    + intros (? & ? & ? & _). repeat split; auto. intros ? [=].
    + intros (? & ? & ? & _). repeat split; auto.
Qed.

(** When the login chains leave no error. *)
Lemma login_errors req :
  Req.errors (Validator.runAll authRoutes.loginChains req) = []
  <-> Req.errors req = []
      /\ Validator.toString (Req.body req !! "username") <> ""
      /\ Validator.toString (Req.body req !! "password") <> "".
Proof.
  rewrite (runAll_pure_errors _ req loginChains_pure).
  unfold authRoutes.loginChains, failures. cbn [flat_map Validator.loc Validator.field
    Validator.optional Validator.steps Req.get andb negb].
  cbn [Validator.runSteps Validator.runStep snd].
  rewrite app_nil_r, !app_nil, !one_error_nil, !negb_true_iff, !String.eqb_neq.
  reflexivity.
Qed.

(** ** Registration and login *)

Section AuthFlow.
Variable isEmail : string -> bool.
Variable bcrypt_hash : string -> string -> string.
Variable bcrypt_compare : string -> string -> bool.
Variable jwt_sign : string -> string -> Z -> string.

Lemma postRegister_valid env req w :
  Req.errors (Validator.runAll (authRoutes.registerChains isEmail) req) = [] ->
  authRoutes.postRegister isEmail bcrypt_hash jwt_sign env req w
  = if existsb (taken env req) (users w)
    then (errorHandler (development env) Prisma.P2002,
          logged (DbUserCreate (Validator.toString (Req.body req !! "username"))) w)
    else (mkResponse 201
            (authController.session
               (jwt_sign (dbUuid env) (Validator.toString (Req.body req !! "username"))
                         (now env))
               (newAccount bcrypt_hash env req)),
          mkWorld (users w ++ [newAccount bcrypt_hash env req]) (audioFiles w) (bucket w)
            (calls w ++ [DbUserCreate (Validator.toString (Req.body req !! "username"))])).
Proof.
  intros Herr.
  unfold authRoutes.postRegister, authController.register, Prisma.user_create.
  rewrite Herr. cbn [isEmpty negb].
  destruct (runAll_pure _ req (registerChains_pure isEmail)) as (_ & _ & ->).
  monad_unfold. fold (Validator.toString (Req.body req !! "username")).
  fold (Validator.toString (Req.body req !! "password")).
  fold (taken env req). fold (newAccount bcrypt_hash env req).
  now destruct (existsb (taken env req) (users w)).
Qed.

Lemma postLogin_valid env req w :
  Req.errors (Validator.runAll authRoutes.loginChains req) = [] ->
  authRoutes.postLogin bcrypt_compare jwt_sign env req w
  = (match List.find (fun u => String.eqb (User.username u)
                                 (Validator.toString (Req.body req !! "username")))
                     (users w) with
     | Some u =>
         if bcrypt_compare (Validator.toString (Req.body req !! "password"))
                           (User.password u)
         then mkResponse 200
                (authController.session
                   (jwt_sign (User.id u) (User.username u) (now env)) u)
         else mkResponse 401 (jerror "Invalid credentials")
     | None => mkResponse 401 (jerror "Invalid credentials")
     end,
     logged (DbUserFindUnique (Validator.toString (Req.body req !! "username"))) w).
Proof.
  intros Herr.
  unfold authRoutes.postLogin, authController.login, Prisma.user_findUnique_username.
  rewrite Herr. cbn [isEmpty negb].
  destruct (runAll_pure _ req loginChains_pure) as (_ & _ & ->).
  monad_unfold. fold (Validator.toString (Req.body req !! "username")).
  fold (Validator.toString (Req.body req !! "password")).
  destruct (List.find _ (users w)) as [u|]; [|reflexivity].
  now destruct (bcrypt_compare _ _).
Qed.

End AuthFlow.

Lemma find_app_fresh {A} (f : A -> bool) l x :
  (forall a, In a l -> f a = false) -> f x = true -> List.find f (l ++ [x]) = Some x.
Proof.
  intros Hl Hx. induction l as [|a l IH]; cbn.
  - now rewrite Hx.
  - rewrite (Hl a (or_introl eq_refl)). apply IH. intros b Hb. apply Hl. now right.
Qed.

Lemma existsb_false {A} (f : A -> bool) l :
  (forall a, In a l -> f a = false) -> existsb f l = false.
Proof.
  intros H. apply not_true_is_false. intros He.
  apply existsb_exists in He as (a & Ha & Hf). rewrite (H a Ha) in Hf. discriminate.
Qed.



(** X4.  A valid registration whose username (or non-empty email) is
    already held by an account is answered 409 "Duplicate Entry"; the
    user table is as before: the existing account is not overwritten and no
    account is added. *)
Theorem register_conflict_no_overwrite :
  forall isEmail bcrypt_hash jwt_sign env req w u,
    Req.errors (Validator.runAll (authRoutes.registerChains isEmail) req) = [] ->
    In u (users w) ->
    User.username u = Validator.toString (Req.body req !! "username")
    \/ (exists e, Req.body req !! "email" = Some e /\ e <> "" /\ User.email u = Some e) ->
    authRoutes.postRegister isEmail bcrypt_hash jwt_sign env req w
    = (mkResponse 409
         (JObj [("error", JStr "Duplicate Entry");
                ("details", JStr "A record with this value already exists")]),
       logged (DbUserCreate (Validator.toString (Req.body req !! "username"))) w).
Proof.
  intros isEmail bcrypt_hash jwt_sign env req w u Herr Hin Hdup.
  rewrite (postRegister_valid isEmail bcrypt_hash jwt_sign env req w Herr).
  assert (Ht : existsb (taken env req) (users w) = true).
  { apply existsb_exists. exists u. split; [exact Hin|]. unfold taken.
    destruct Hdup as [Hn | (e & He & Hne & Hu)].
    - rewrite Hn, String.eqb_refl. now rewrite orb_true_r.
    - rewrite He, Hu. unfold JS.orNull, JS.truthy.
      apply String.eqb_neq in Hne. rewrite Hne. cbn.
      rewrite String.eqb_refl. now rewrite orb_true_r. }
  now rewrite Ht.
Qed.

Lemma register_conflict_no_overwrite_witness :
  authRoutes.postRegister Sample.isEmail Sample.bcrypt_hash Sample.jwt_sign
    Sample.env (Cases.credentials "alice" "secret1") Sample.world
  = (mkResponse 409
       (JObj [("error", JStr "Duplicate Entry");
              ("details", JStr "A record with this value already exists")]),
     logged (DbUserCreate "alice") Sample.world).
Proof.
  apply (register_conflict_no_overwrite Sample.isEmail Sample.bcrypt_hash
           Sample.jwt_sign Sample.env (Cases.credentials "alice" "secret1")
           Sample.world Sample.alice).
  - reflexivity.
  - cbn. auto.
  - left. reflexivity.
Defined.

(** X5.  Register, then log in.  A valid registration that collides with
    no account is answered 201 and appends one account whose stored
    password is the hash of the submitted one; a login with the same
    username and password on the resulting state (whenever [bcrypt.compare]
    accepts a password against its own hash) is answered 200 with the
    session of that new account. *)
Theorem register_then_login :
  forall isEmail bcrypt_hash bcrypt_compare jwt_sign env env' req w,
    Req.errors (Validator.runAll (authRoutes.registerChains isEmail) req) = [] ->
    (forall u, In u (users w) -> taken env req u = false) ->
    bcrypt_compare (Validator.toString (Req.body req !! "password"))
                   (bcrypt_hash (Validator.toString (Req.body req !! "password"))
                                (salt env)) = true ->
    let r1 := authRoutes.postRegister isEmail bcrypt_hash jwt_sign env req w in
    let r2 := authRoutes.postLogin bcrypt_compare jwt_sign env' req (snd r1) in
    status (fst r1) = 201%nat
    /\ users (snd r1) = users w ++ [newAccount bcrypt_hash env req]
    /\ fst r2 = mkResponse 200
                  (authController.session
                     (jwt_sign (dbUuid env)
                               (Validator.toString (Req.body req !! "username"))
                               (now env'))
                     (newAccount bcrypt_hash env req)).
Proof.
  intros isEmail bcrypt_hash bcrypt_compare jwt_sign env env' req w Herr Hfree Hcmp r1 r2.
  subst r2 r1.
  rewrite (postRegister_valid isEmail bcrypt_hash jwt_sign env req w Herr).
  rewrite (existsb_false _ _ Hfree). cbn [fst snd status users].
  split; [reflexivity|]. split; [reflexivity|].
  apply register_errors in Herr as (He & Hu & Hp & _).
  rewrite postLogin_valid.
  2:{ apply login_errors. split; [exact He|].
      split; [exact (isLength_nonempty _ _ _ Hu) | exact (isLength_nonempty _ _ _ Hp)]. }
  cbn [fst users].
  rewrite (find_app_fresh _ (users w) (newAccount bcrypt_hash env req)).
  - cbn [User.password User.id User.username newAccount]. now rewrite Hcmp.
  - intros a Ha. specialize (Hfree a Ha). unfold taken in Hfree.
    apply orb_false_iff in Hfree as [Hfree _]. now apply orb_false_iff in Hfree as [_ ?].
  - cbn. apply String.eqb_refl.
Qed.

(** Carol registers, then logs in. *)
Lemma register_then_login_witness :
  status (fst (authRoutes.postRegister Sample.isEmail Sample.bcrypt_hash Sample.jwt_sign
                 Sample.env (Cases.credentials "carol" "secret1") Sample.world))
  = 201%nat
  /\ fst (authRoutes.postLogin Sample.bcrypt_compare Sample.jwt_sign Sample.envS3Down
            (Cases.credentials "carol" "secret1")
            (snd (authRoutes.postRegister Sample.isEmail Sample.bcrypt_hash
                    Sample.jwt_sign Sample.env (Cases.credentials "carol" "secret1")
                    Sample.world)))
     = mkResponse 200
         (authController.session "jwt.a2.carol"
            (User.mk "a2" "carol" "$2a$10$saltsecret1" None 100 100)).
Proof.
  destruct (register_then_login Sample.isEmail Sample.bcrypt_hash Sample.bcrypt_compare
              Sample.jwt_sign Sample.env Sample.envS3Down
              (Cases.credentials "carol" "secret1") Sample.world)
    as (H1 & _ & H2).
  - reflexivity.
  - intros u [<- | [<- | []]]; reflexivity.
  - reflexivity.
  - split; [exact H1 | exact H2].
Defined.

(** X6.  A well-formed login for which no account of that username
    accepts the password (there is none, or [bcrypt.compare] refuses) gets
    one and the same answer in both cases, 401 "Invalid credentials", after
    the single lookup; nothing distinguishes an unknown username from a
    wrong password. *)
Theorem login_failures_indistinguishable :
  forall bcrypt_compare jwt_sign env req w,
    Req.errors (Validator.runAll authRoutes.loginChains req) = [] ->
    (forall u, In u (users w) ->
               User.username u = Validator.toString (Req.body req !! "username") ->
               bcrypt_compare (Validator.toString (Req.body req !! "password"))
                              (User.password u) = false) ->
    authRoutes.postLogin bcrypt_compare jwt_sign env req w
    = (mkResponse 401 (jerror "Invalid credentials"),
       logged (DbUserFindUnique (Validator.toString (Req.body req !! "username"))) w).
Proof.
  intros bcrypt_compare jwt_sign env req w Herr Hno.
  rewrite (postLogin_valid bcrypt_compare jwt_sign env req w Herr).
  destruct (List.find _ (users w)) as [u|] eqn:Hf; [|reflexivity].
  apply find_some in Hf as [Hin Hu]. apply String.eqb_eq in Hu.
  now rewrite (Hno u Hin Hu).
Qed.

(** An unknown username, and Alice's username with a wrong password. *)
Lemma login_failures_indistinguishable_witness :
  fst (authRoutes.postLogin Sample.bcrypt_compare Sample.jwt_sign Sample.env
         (Cases.credentials "nonexistent" "wrongpass") Sample.world)
  = fst (authRoutes.postLogin Sample.bcrypt_compare Sample.jwt_sign Sample.env
           (Cases.credentials "alice" "wrongpass") Sample.world).
Proof.
  rewrite (login_failures_indistinguishable Sample.bcrypt_compare Sample.jwt_sign
             Sample.env (Cases.credentials "nonexistent" "wrongpass") Sample.world).
  - rewrite (login_failures_indistinguishable Sample.bcrypt_compare Sample.jwt_sign
               Sample.env (Cases.credentials "alice" "wrongpass") Sample.world).
    + reflexivity.
    + reflexivity.
    + intros u [<- | [<- | []]]; [reflexivity | discriminate].
  - reflexivity.
  - intros u [<- | [<- | []]]; discriminate.
Defined.

(** X7.  The token of a successful login, presented as a bearer token,
    passes the authentication middleware with the identifier and username of
    an account whose username is the submitted one and whose stored hash
    accepts the submitted password (given that [jwt.verify] decodes what
    [jwt.sign] issued for the accounts at hand). *)
Theorem login_token_authenticates :
  forall bcrypt_compare jwt_sign jwt_verify env req w,
    (forall u, In u (users w) ->
               jwt_verify (jwt_sign (User.id u) (User.username u) (now env))
               = Some (mkAuthUser (User.id u) (User.username u))) ->
    success (fst (authRoutes.postLogin bcrypt_compare jwt_sign env req w)) ->
    exists u token,
      In u (users w)
      /\ User.username u = Validator.toString (Req.body req !! "username")
      /\ bcrypt_compare (Validator.toString (Req.body req !! "password"))
                        (User.password u) = true
      /\ fst (authRoutes.postLogin bcrypt_compare jwt_sign env req w)
         = mkResponse 200 (authController.session token u)
      /\ authMiddleware.run jwt_verify (Some ("Bearer " +:+ token))
         = inr (mkAuthUser (User.id u) (User.username u)).
Proof.
  intros bcrypt_compare jwt_sign jwt_verify env req w Hlaw Hs.
  destruct (Req.errors (Validator.runAll authRoutes.loginChains req)) as [|e errs] eqn:Herr.
  2:{ revert Hs. unfold authRoutes.postLogin, authController.login. rewrite Herr.
      cbn. intros [H|H]; discriminate. }
  revert Hs. rewrite (postLogin_valid bcrypt_compare jwt_sign env req w Herr). cbn [fst].
  destruct (List.find _ (users w)) as [u|] eqn:Hf.
  2:{ cbn. intros [H|H]; discriminate. }
  destruct (bcrypt_compare _ (User.password u)) eqn:Hc.
  2:{ cbn. intros [H|H]; discriminate. }
  intros _. apply find_some in Hf as [Hin Hu]. apply String.eqb_eq in Hu.
  exists u, (jwt_sign (User.id u) (User.username u) (now env)).
  repeat split; auto.
  apply bearer_accepted. now apply Hlaw.
Qed.

(** Alice logs in and presents her token. *)
Lemma login_token_authenticates_witness :
  exists u token,
    In u (users Sample.world)
    /\ User.username u = "alice"
    /\ Sample.bcrypt_compare "alice" (User.password u) = true
    /\ fst (authRoutes.postLogin Sample.bcrypt_compare Sample.jwt_sign Sample.env
              Sample.loginAlice Sample.world)
       = mkResponse 200 (authController.session token u)
    /\ authMiddleware.run Cases.jwt_verify (Some ("Bearer " +:+ token))
       = inr (mkAuthUser (User.id u) (User.username u)).
Proof.
  apply (login_token_authenticates Sample.bcrypt_compare Sample.jwt_sign
           Cases.jwt_verify Sample.env Sample.loginAlice Sample.world).
  - intros u [<- | [<- | []]]; reflexivity.
  - left. reflexivity.
Defined.

(** ** Upload, read, list, delete: how the routes compose *)


(** A delete by the owner while the storage service answers, evaluated. *)
Lemma deleteOne_owned isUUID env req w id a :
  Req.params req !! "id" = Some id ->
  Prisma.audioById id (audioFiles w) = Some a ->
  AudioFile.userId a = userId (Req.user req) ->
  s3Failure env = None ->
  audioRoutes.deleteOne isUUID env req w
  = (mkResponse 200 (JObj [("message", JStr "Audio file deleted successfully")]),
     mkWorld (users w)
       (List.filter (fun x => negb (String.eqb (AudioFile.id x) id)) (audioFiles w))
       (delete (AudioFile.s3Key a) (bucket w))
       (calls w ++ [DbAudioFindUnique id;
                    S3DeleteObject (AudioFile.s3Key a);
                    DbAudioDelete id])).
Proof.
  intros Hid Ha Hown Hs3.
  unfold audioRoutes.deleteOne, audioController.deleteAudio,
    Prisma.audioFile_findUnique, s3Service.deleteFromS3, s3Service.send,
    Prisma.audioFile_delete.
  rewrite idChains_params, runAll_user, Hid, Hs3.
  assert (Hseq : negb (JS.seq (AudioFile.userId a) (userId (Req.user req))) = false).
  { rewrite Hown. unfold JS.seq. now rewrite String.eqb_refl. }
  monad_unfold. rewrite Ha, Hseq. monad_simpl.
  rewrite (audioById_exists _ _ _ Ha). now rewrite <- !app_assoc.
Qed.

(** The listing, evaluated. *)
Lemma getList_eval env req w :
  audioRoutes.getList env req w
  = (mkResponse 200
       (JArr (map AudioFile.toJson
                (merge_sort Prisma.newerFirst
                   (List.filter (Prisma.matchesWhere (userId (Req.user req))
                                                     (categoryFilter req))
                                (audioFiles w))))),
     logged (DbAudioFindMany (userId (Req.user req)) (categoryFilter req)) w).
Proof.
  unfold audioRoutes.getList, audioController.getUserAudioFiles,
    Prisma.audioFile_findMany.
  destruct (runAll_pure _ req listChains_pure) as (_ & -> & _).
  rewrite runAll_user.
  assert (Hf : (if JS.truthy (Req.query req !! "category")
                then Req.query req !! "category" else None)
               = categoryFilter req).
  { unfold categoryFilter, JS.truthy.
    destruct (Req.query req !! "category") as [c|]; [|reflexivity].
    now destruct (String.eqb c ""). }
  rewrite Hf. now monad_unfold.
Qed.

Lemma audioById_filtered id rows :
  Prisma.audioById id
    (List.filter (fun x => negb (String.eqb (AudioFile.id x) id)) rows) = None.
Proof.
  unfold Prisma.audioById.
  destruct (List.find _ _) as [a|] eqn:Hf; [|reflexivity].
  apply find_some in Hf as [Hin Heq]. apply filter_In in Hin as [_ Hne].
  rewrite Heq in Hne. discriminate.
Qed.




Section Composition.
Variable isUUID : string -> bool.
Variable getSignedUrl : string -> string -> Z -> string.



End Composition.

(** X8.  An upload whose file has a MIME type outside ["audio/avi"],
    ["audio/mp4"], ["audio/mpeg"] is answered 400 "Invalid file type", and
    one whose file is larger than 50 MB is answered 400 "File too large";
    in both cases before the controller runs: no downstream call, nothing
    stored. *)
Theorem upload_rejects_file_before_any_call :
  forall env req w f,
    Req.file req = Some f ->
    (JS.arrayIncludes ["audio/avi"; "audio/mp4"; "audio/mpeg"] (mimetype f) = false ->
     audioRoutes.postUpload env req w
     = (mkResponse 400
          (JObj [("error", JStr "Invalid file type");
                 ("details", JStr "Invalid file type. Only audio files are allowed.")]),
        w))
    /\ (JS.arrayIncludes ["audio/avi"; "audio/mp4"; "audio/mpeg"] (mimetype f) = true ->
        50 * 1024 * 1024 < size f ->
        audioRoutes.postUpload env req w
        = (mkResponse 400
             (JObj [("error", JStr "File too large");
                    ("details", JStr "Maximum file size is 50MB")]),
           w)).
Proof.
  intros env req w f Hf.
  unfold audioRoutes.postUpload, multerConfig.single, multerConfig.fileFilter.
  rewrite Hf. change multerConfig.allowedMimeTypes with ["audio/avi"; "audio/mp4"; "audio/mpeg"].
  split.
  - intros ->. reflexivity.
  - intros -> Hsize.
    replace (Z.leb multerConfig.fileSizeLimit (size f)) with true
      by (symmetry; apply Z.leb_le, Z.lt_le_incl; exact Hsize).
    reflexivity.
Qed.

(** A WAV file, and an MP3 file one byte over the limit. *)
Lemma upload_rejects_file_before_any_call_witness :
  fst (audioRoutes.postUpload Sample.env (Cases.uploadOf Sample.asAlice Cases.wav)
         Sample.world)
  = mkResponse 400
      (JObj [("error", JStr "Invalid file type");
             ("details", JStr "Invalid file type. Only audio files are allowed.")])
  /\ audioRoutes.postUpload Sample.env (Cases.uploadOf Sample.asAlice Cases.huge)
       Sample.world
     = (mkResponse 400
          (JObj [("error", JStr "File too large");
                 ("details", JStr "Maximum file size is 50MB")]),
        Sample.world).
Proof.
  split.
  - destruct (upload_rejects_file_before_any_call Sample.env
                (Cases.uploadOf Sample.asAlice Cases.wav) Sample.world Cases.wav eq_refl)
      as [H _].
    now rewrite (H eq_refl).
  - destruct (upload_rejects_file_before_any_call Sample.env
                (Cases.uploadOf Sample.asAlice Cases.huge) Sample.world Cases.huge eq_refl)
      as [_ H].
    apply H; [reflexivity | vm_compute; reflexivity].
Defined.

(** X9.  Deleting the same asset twice: the owner's delete is answered
    200 and removes the record; any later delete of that identifier, by
    anyone, is answered 404. *)
Theorem delete_twice_not_found :
  forall isUUID env env' req req' w id a,
    Req.params req !! "id" = Some id ->
    Prisma.audioById id (audioFiles w) = Some a ->
    AudioFile.userId a = userId (Req.user req) ->
    s3Failure env = None ->
    Req.params req' !! "id" = Some id ->
    let r1 := audioRoutes.deleteOne isUUID env req w in
    fst r1 = mkResponse 200 (JObj [("message", JStr "Audio file deleted successfully")])
    /\ Prisma.audioById id (audioFiles (snd r1)) = None
    /\ fst (audioRoutes.deleteOne isUUID env' req' (snd r1))
       = mkResponse 404 (jerror "Audio file not found").
Proof.
  intros isUUID env env' req req' w id a Hid Ha Hown Hs3 Hid' r1. subst r1.
  rewrite (deleteOne_owned isUUID env req w id a Hid Ha Hown Hs3). cbn [fst snd audioFiles].
  split; [reflexivity|]. split; [apply audioById_filtered|].
  rewrite (deleteOne_missing isUUID env' req' _ id Hid'); [reflexivity|].
  apply audioById_filtered.
Qed.

Lemma delete_twice_not_found_witness :
  fst (audioRoutes.deleteOne Sample.isUUID Sample.env (Sample.byId Sample.asAlice "a1")
         (snd (audioRoutes.deleteOne Sample.isUUID Sample.env
                 (Sample.byId Sample.asAlice "a1") Sample.world)))
  = mkResponse 404 (jerror "Audio file not found").
Proof.
  apply (delete_twice_not_found Sample.isUUID Sample.env Sample.env
           (Sample.byId Sample.asAlice "a1") (Sample.byId Sample.asAlice "a1")
           Sample.world "a1" Sample.song); reflexivity.
Defined.







(** X13.  The duplicate-name probe is answered 200 in every case, after
    one lookup and nothing else: with a record of the asset table whose
    file name and owner are the ones in the URL when there is one, with the
    "not found, proceed" message exactly when no record has that file name
    and owner. *)
Theorem probe_reports_a_match :
  forall env req w fileName owner,
    Req.params req !! "fileName" = Some fileName ->
    Req.params req !! "userId" = Some owner ->
    let r := audioRoutes.getCheck env req w in
    snd r = logged (DbAudioFindFirst fileName owner) w
    /\ ((exists a,
           In a (audioFiles w)
           /\ AudioFile.fileName a = fileName
           /\ AudioFile.userId a = owner
           /\ fst r = mkResponse 200
                        (JObj [("message",
                                JStr "This audio file was uploaded previously. Please proceed if you want to re-upload it.");
                               ("audioFile", AudioFile.toJson a)]))
        \/ ((forall a, In a (audioFiles w) ->
                       ~ (AudioFile.fileName a = fileName /\ AudioFile.userId a = owner))
            /\ fst r = mkResponse 200
                         (JObj [("message",
                                 JStr "Audio file not found, proceed with upload")]))).
Proof.
  intros env req w fileName owner Hf Hu r. subst r.
  assert (Hpure : Forall pureChain audioRoutes.checkChains).
  { repeat constructor; now exists Validator.NotEmpty. }
  unfold audioRoutes.getCheck, audioController.getAudioFileByName,
    Prisma.audioFile_findFirst.
  destruct (runAll_pure _ req Hpure) as (-> & _ & _). rewrite Hf, Hu.
  monad_unfold.
  destruct (List.find _ (audioFiles w)) as [a|] eqn:Hfind.
  - split; [reflexivity|]. left. exists a.
    apply find_some in Hfind as [Hin Hm].
    apply andb_true_iff in Hm as [H1 H2].
    apply String.eqb_eq in H1, H2. now repeat split.
  - split; [reflexivity|]. right. split; [|reflexivity].
    intros a Hin [H1 H2].
    pose proof (find_none _ _ Hfind a Hin) as Hm. cbn beta in Hm.
    rewrite H1, H2, !String.eqb_refl in Hm. discriminate.
Qed.

Lemma probe_reports_a_match_witness :
  snd (audioRoutes.getCheck Sample.env Sample.probe Sample.world)
  = logged (DbAudioFindFirst "song.mp3" "u-alice") Sample.world.
Proof.
  apply (probe_reports_a_match Sample.env Sample.probe Sample.world
           "song.mp3" "u-alice" eq_refl eq_refl).
Defined.

(** X14.  The reading routes ([GET /audio/:id], [GET /audio/:id/play],
    [GET /audio], the probe, [GET /users/me]) and login leave both tables
    and the bucket as they were, whatever the request and whatever they
    answer. *)
Theorem reading_routes_change_nothing :
  forall isUUID getSignedUrl bcrypt_compare jwt_sign env req w,
    durable (snd (audioRoutes.getOne isUUID env req w)) = durable w
    /\ durable (snd (audioRoutes.getPlay isUUID getSignedUrl env req w)) = durable w
    /\ durable (snd (audioRoutes.getList env req w)) = durable w
    /\ durable (snd (audioRoutes.getCheck env req w)) = durable w
    /\ durable (snd (userRoutes.getMe env req w)) = durable w
    /\ durable (snd (authRoutes.postLogin bcrypt_compare jwt_sign env req w)) = durable w.
Proof.
  intros isUUID getSignedUrl bcrypt_compare jwt_sign env req w.
  split; [|split; [|split; [|split; [|split]]]].
  - unfold audioRoutes.getOne, audioController.getAudioFile, Prisma.audioFile_findUnique.
    monad_unfold. destruct (Prisma.audioById _ _); [|reflexivity].
    now destruct (negb _).
  - unfold audioRoutes.getPlay, audioController.getPlaybackUrl,
      Prisma.audioFile_findUnique, s3Service.getPresignedUrl.
    monad_unfold. destruct (Prisma.audioById _ _); [|reflexivity].
    now destruct (negb _).
  - now rewrite getList_eval.
  - unfold audioRoutes.getCheck, audioController.getAudioFileByName,
      Prisma.audioFile_findFirst.
    monad_unfold. now destruct (List.find _ _).
  - unfold userRoutes.getMe, userController.getCurrentUser, Prisma.user_findUnique_id.
    monad_unfold. now destruct (Prisma.userById _ _).
  - unfold authRoutes.postLogin, authController.login, Prisma.user_findUnique_username.
    destruct (negb (isEmpty _)); [reflexivity|].
    monad_unfold. destruct (List.find _ _); [|reflexivity].
    now destruct (negb _).
Qed.

(** X15.  No route rewrites a record of the asset table.  After an upload
    every record is one that was there, or the new one, which belongs to the
    caller and carries the assigned identifier and the upload's key; after a
    delete of an asset or of an account every record is one that was there;
    an account update and a registration leave the asset table as it was.
    (With X14: an existing asset never changes owner, key or any other
    field.) *)
Theorem existing_assets_never_rewritten :
  forall isUUID isEmail bcrypt_hash jwt_sign env req w,
    (forall a,
       In a (audioFiles (snd (audioRoutes.postUpload env req w))) ->
       In a (audioFiles w)
       \/ (AudioFile.userId a = userId (Req.user req)
           /\ AudioFile.id a = dbUuid env
           /\ exists f, Req.file req = Some f
                        /\ AudioFile.s3Key a = uploadKey env req f))
    /\ (forall a,
          In a (audioFiles (snd (audioRoutes.deleteOne isUUID env req w))) ->
          In a (audioFiles w))
    /\ (forall a,
          In a (audioFiles (snd (userRoutes.deleteUser env req w))) ->
          In a (audioFiles w))
    /\ audioFiles (snd (userRoutes.putUser isEmail bcrypt_hash env req w)) = audioFiles w
    /\ audioFiles (snd (authRoutes.postRegister isEmail bcrypt_hash jwt_sign env req w))
       = audioFiles w.
Proof.
  intros isUUID isEmail bcrypt_hash jwt_sign env req w.
  split; [|split; [|split; [|split]]].
  - intros a. unfold audioRoutes.postUpload.
    destruct (multerConfig.single req) as [e|req1] eqn:Hm; [now left|].
    apply single_inr in Hm. subst req1.
    unfold audioController.uploadAudio. rewrite runAll_file, runAll_user.
    destruct (Req.file req) as [f|]; [|now left].
    destruct (_ || _); [now left|].
    unfold s3Service.uploadToS3, s3Service.send, Prisma.audioFile_create.
    fold (uploadKey env req f).
    destruct (s3Failure env); [now left|].
    monad_unfold.
    cbn [s3Service.key s3Service.url AudioFileData.s3Key AudioFileData.userId].
    destruct (existsb _ (audioFiles w)); [now left|].
    destruct (negb (existsb _ (users w))); [now left|].
    cbn [snd audioFiles]. intros Hin. apply in_app_or in Hin as [Hin | [<- | []]].
    + now left.
    + right. cbn. repeat split. now exists f.
  - intros a. unfold audioRoutes.deleteOne, audioController.deleteAudio,
      Prisma.audioFile_findUnique, s3Service.deleteFromS3, s3Service.send,
      Prisma.audioFile_delete.
    monad_unfold.
    destruct (Prisma.audioById _ _); [|now cbn].
    destruct (negb _); [now cbn|].
    destruct (s3Failure env); [now cbn|]. monad_simpl.
    destruct (existsb _ (audioFiles w)); [|now cbn].
    cbn [snd audioFiles]. intros Hin. now apply filter_In in Hin as [? _].
  - intros a. unfold userRoutes.deleteUser, userController.deleteUser, Prisma.user_delete.
    destruct (negb _); [now monad_unfold|]. monad_unfold.
    destruct (existsb _ (users w)); [|now cbn].
    cbn [snd audioFiles]. intros Hin. now apply filter_In in Hin as [? _].
  - unfold userRoutes.putUser, userController.updateUser, Prisma.user_update.
    destruct (negb (isEmpty _)); [reflexivity|].
    destruct (negb _); [reflexivity|]. monad_unfold.
    destruct (Prisma.userById _ _); [|reflexivity].
    now destruct (existsb _ (users w)).
  - unfold authRoutes.postRegister, authController.register, Prisma.user_create.
    destruct (negb (isEmpty _)); [reflexivity|]. monad_unfold.
    now destruct (existsb _ (users w)).
Qed.

(** ** Account deletion *)

(** X16.  [DELETE /users/:id]: addressed to another account it is
    answered 403 without any downstream call; addressed to the caller's own
    account it removes that account and, with it, every asset the account
    owns, leaves the other accounts and their assets in place and never
    calls the storage service: the bucket, the blobs of the removed assets
    included, is as before.  When the account is already gone the answer is
    404. *)
Theorem deleteUser_cascades_but_keeps_blobs :
  forall env req w id,
    Req.params req !! "id" = Some id ->
    let r := userRoutes.deleteUser env req w in
    (id <> userId (Req.user req) -> r = (mkResponse 403 (jerror "Forbidden"), w))
    /\ (id = userId (Req.user req) ->
        (exists u, In u (users w) /\ User.id u = id) ->
        fst r = mkResponse 200 (JObj [("message", JStr "User deleted successfully")])
        /\ calls (snd r) = calls w ++ [DbUserDelete id]
        /\ bucket (snd r) = bucket w
        /\ (forall u, In u (users (snd r)) <-> In u (users w) /\ User.id u <> id)
        /\ (forall a, In a (audioFiles (snd r))
                      <-> In a (audioFiles w) /\ AudioFile.userId a <> id))
    /\ (id = userId (Req.user req) ->
        (forall u, In u (users w) -> User.id u <> id) ->
        r = (mkResponse 404
               (JObj [("error", JStr "Not Found");
                      ("details", JStr "The requested resource was not found")]),
             logged (DbUserDelete id) w)).
Proof.
  intros env req w id Hid r. subst r.
  unfold userRoutes.deleteUser, userController.deleteUser, Prisma.user_delete.
  rewrite Hid. cbn [default from_option Datatypes.id]. unfold JS.seq.
  split; [|split].
  - intros Hne. assert (Hs : String.eqb (userId (Req.user req)) id = false)
      by (apply String.eqb_neq; congruence).
    rewrite Hs. cbn [negb]. now monad_unfold.
  - intros -> (u & Hin & Hu). rewrite String.eqb_refl. cbn [negb]. monad_unfold.
    assert (Hex : existsb (fun u => String.eqb (User.id u) (userId (Req.user req)))
                          (users w) = true).
    { apply existsb_exists. exists u. split; [exact Hin | now apply String.eqb_eq]. }
    rewrite Hex. cbn [fst snd calls bucket users audioFiles].
    split; [reflexivity|]. split; [reflexivity|]. split; [reflexivity|]. split.
    + intros x. rewrite filter_In, negb_true_iff, String.eqb_neq. reflexivity.
    + intros a. rewrite filter_In, negb_true_iff, String.eqb_neq. reflexivity.
  - intros -> Hnone. rewrite String.eqb_refl. cbn [negb]. monad_unfold.
    rewrite existsb_false; [reflexivity|].
    intros u Hin. apply String.eqb_neq. now apply Hnone.
Qed.

(** Bob addresses Alice's account; Alice deletes her own. *)
Lemma deleteUser_cascades_but_keeps_blobs_witness :
  userRoutes.deleteUser Sample.env (Sample.byId Sample.asBob "u-alice") Sample.world
  = (mkResponse 403 (jerror "Forbidden"), Sample.world)
  /\ bucket (snd (userRoutes.deleteUser Sample.env
                    (Sample.byId Sample.asAlice "u-alice") Sample.world))
     = bucket Sample.world.
Proof.
  split.
  - apply (deleteUser_cascades_but_keeps_blobs Sample.env
             (Sample.byId Sample.asBob "u-alice") Sample.world "u-alice" eq_refl).
    discriminate.
  - destruct (deleteUser_cascades_but_keeps_blobs Sample.env
                (Sample.byId Sample.asAlice "u-alice") Sample.world "u-alice" eq_refl)
      as (_ & H & _).
    destruct (H eq_refl) as (_ & _ & Hb & _); [|exact Hb].
    exists Sample.alice. split; [cbn; auto | reflexivity].
Defined.

(** ** Account update, continued *)

Lemma find_map {A B} (g : B -> bool) (f : A -> B) l :
  List.find g (map f l) = f <$> List.find (fun a => g (f a)) l.
Proof.
  induction l as [|a l IH]; [reflexivity|]. cbn [map List.find].
  now destruct (g (f a)).
Qed.

Lemma find_unique {A} (g : A -> bool) l x :
  In x l -> g x = true -> (forall y, In y l -> g y = true -> y = x) ->
  List.find g l = Some x.
Proof.
  intros Hin Hx Huniq.
  destruct (List.find g l) as [y|] eqn:Hf.
  - apply find_some in Hf as [Hy Hg]. now rewrite (Huniq y Hy Hg).
  - rewrite (find_none _ _ Hf x Hin) in Hx. discriminate.
Qed.

Section UpdateFlow.
Variable isEmail : string -> bool.
Variable bcrypt_hash : string -> string -> string.

(** An update of the caller's own account that passes validation,
    evaluated. *)
Lemma putUser_own env req w id :
  Req.errors (Validator.runAll (userRoutes.updateChains isEmail) req) = [] ->
  Req.params req !! "id" = Some id ->
  id = userId (Req.user req) ->
  userRoutes.putUser isEmail bcrypt_hash env req w
  = match Prisma.userById id (users w) with
    | None => (errorHandler (development env) Prisma.P2025, logged (DbUserUpdate id) w)
    | Some u =>
        let d := userController.updateData bcrypt_hash env req in
        if existsb (fun o => negb (String.eqb (User.id o) id)
                             && (match UserUpdate.username d with
                                 | Some n => String.eqb (User.username o) n
                                 | None => false
                                 end
                                 || Prisma.sameEmail (User.email o) (UserUpdate.email d)))
                   (users w)
        then (errorHandler (development env) Prisma.P2002, logged (DbUserUpdate id) w)
        else (mkResponse 200
                (Prisma.selected (Prisma.mkSelect true true false true false true)
                                 (Prisma.applyUpdate env d u)),
              mkWorld (map (fun o => if String.eqb (User.id o) id
                                     then Prisma.applyUpdate env d o else o)
                           (users w))
                      (audioFiles w) (bucket w) (calls w ++ [DbUserUpdate id]))
    end.
Proof.
  intros Herr Hid Hown.
  unfold userRoutes.putUser, userController.updateUser, Prisma.user_update.
  rewrite Herr. cbn [isEmpty negb].
  destruct (runAll_pure _ req (updateChains_pure isEmail)) as (-> & _ & _).
  rewrite Hid, runAll_user, updateData_runAll. cbn [default from_option Datatypes.id].
  unfold JS.seq. rewrite <- Hown, String.eqb_refl. cbn [negb]. monad_unfold.
  destruct (Prisma.userById id (users w)) as [u|]; [|reflexivity].
  cbn zeta. now destruct (existsb _ (users w)).
Qed.

End UpdateFlow.

(** X17.  Changing the username to one another account holds is answered
    409 "Duplicate Entry" and changes no account. *)
Theorem account_update_conflict :
  forall isEmail bcrypt_hash env req w id u o n,
    Req.errors (Validator.runAll (userRoutes.updateChains isEmail) req) = [] ->
    Req.params req !! "id" = Some id ->
    id = userId (Req.user req) ->
    Prisma.userById id (users w) = Some u ->
    Req.body req !! "username" = Some n ->
    In o (users w) -> User.id o <> id -> User.username o = n ->
    userRoutes.putUser isEmail bcrypt_hash env req w
    = (mkResponse 409
         (JObj [("error", JStr "Duplicate Entry");
                ("details", JStr "A record with this value already exists")]),
       logged (DbUserUpdate id) w).
Proof.
  intros isEmail bcrypt_hash env req w id u o n Herr Hid Hown Hu Hn Hin Hoid Hon.
  rewrite (putUser_own isEmail bcrypt_hash env req w id Herr Hid Hown), Hu. cbn zeta.
  destruct (update_valid isEmail req Herr) as [Hname _].
  assert (Hex : existsb
    (fun o => negb (String.eqb (User.id o) id)
              && (match UserUpdate.username (userController.updateData bcrypt_hash env req) with
                  | Some n => String.eqb (User.username o) n
                  | None => false
                  end
                  || Prisma.sameEmail (User.email o)
                       (UserUpdate.email (userController.updateData bcrypt_hash env req))))
    (users w) = true).
  { apply existsb_exists. exists o. split; [exact Hin|].
    apply String.eqb_neq in Hoid. rewrite Hoid. cbn [negb andb].
    unfold userController.updateData. cbn [UserUpdate.username]. rewrite Hn.
    pose proof (Hname n Hn) as Hne. apply String.eqb_neq in Hne.
    cbn [JS.truthy]. rewrite Hne. cbn [negb]. rewrite Hon, String.eqb_refl. reflexivity. }
  now rewrite Hex.
Qed.

(** Alice asks for Bob's username. *)
Lemma account_update_conflict_witness :
  userRoutes.putUser Sample.isEmail Sample.bcrypt_hash Sample.env
    (Req.mk Sample.asAlice (<["id" := "u-alice"]> ∅) ∅ (<["username" := "bob"]> ∅) None [])
    Sample.world
  = (mkResponse 409
       (JObj [("error", JStr "Duplicate Entry");
              ("details", JStr "A record with this value already exists")]),
     logged (DbUserUpdate "u-alice") Sample.world).
Proof.
  apply (account_update_conflict Sample.isEmail Sample.bcrypt_hash Sample.env
           (Req.mk Sample.asAlice (<["id" := "u-alice"]> ∅) ∅
                   (<["username" := "bob"]> ∅) None [])
           Sample.world "u-alice" Sample.alice Sample.bob "bob").
  - reflexivity.
  - reflexivity.
  - reflexivity.
  - reflexivity.
  - reflexivity.
  - cbn. auto.
  - discriminate.
  - reflexivity.
Defined.

(** X18.  Change the password, then log in.  After the caller's own
    update that supplies only a password (answered 200), a login with the
    account's username and the new password is answered 200 with the
    session of that account, given that usernames are unique in the user
    table and that [bcrypt.compare] accepts a password against its own
    hash. *)
Theorem password_change_then_login :
  forall isEmail bcrypt_hash bcrypt_compare jwt_sign env env' req reqL w id u p,
    Req.errors (Validator.runAll (userRoutes.updateChains isEmail) req) = [] ->
    Req.params req !! "id" = Some id ->
    id = userId (Req.user req) ->
    Prisma.userById id (users w) = Some u ->
    (forall o, In o (users w) -> User.username o = User.username u -> o = u) ->
    Req.body req !! "password" = Some p ->
    Req.body req !! "username" = None ->
    Req.body req !! "email" = None ->
    bcrypt_compare p (bcrypt_hash p (salt env)) = true ->
    Req.errors reqL = [] ->
    Req.body reqL !! "username" = Some (User.username u) ->
    User.username u <> "" ->
    Req.body reqL !! "password" = Some p ->
    let r1 := userRoutes.putUser isEmail bcrypt_hash env req w in
    let r2 := authRoutes.postLogin bcrypt_compare jwt_sign env' reqL (snd r1) in
    status (fst r1) = 200%nat
    /\ exists u',
         fst r2 = mkResponse 200
                    (authController.session
                       (jwt_sign (User.id u) (User.username u) (now env')) u')
         /\ User.id u' = User.id u
         /\ User.password u' = bcrypt_hash p (salt env).
Proof.
  intros isEmail bcrypt_hash bcrypt_compare jwt_sign env env' req reqL w id u p
         Herr Hid Hown Hu Huniq Hp Hn He Hcmp HerrL HnL Hune HpL r1 r2.
  subst r2 r1.
  destruct (update_valid isEmail req Herr) as [_ Hpass].
  pose proof (Hpass p Hp) as Hpne. apply String.eqb_neq in Hpne.
  assert (Hd : userController.updateData bcrypt_hash env req
               = UserUpdate.mk None None (Some (bcrypt_hash p (salt env)))).
  { unfold userController.updateData. rewrite Hp, Hn, He. cbn [JS.truthy].
    rewrite Hpne. reflexivity. }
  rewrite (putUser_own isEmail bcrypt_hash env req w id Herr Hid Hown), Hu, Hd. cbn zeta.
  cbn [UserUpdate.username UserUpdate.email].
  rewrite existsb_false.
  2:{ intros o _. cbn. destruct (User.email o); now rewrite andb_false_r. }
  cbn [fst snd status]. split; [reflexivity|].
  rewrite postLogin_valid.
  2:{ apply login_errors. rewrite HnL, HpL. cbn.
      split; [exact HerrL|]. split; [exact Hune | exact (Hpass p Hp)]. }
  cbn [fst users]. rewrite HnL, HpL. cbn [Validator.toString default from_option Datatypes.id].
  rewrite find_map.
  assert (Hin : In u (users w) /\ User.id u = id).
  { unfold Prisma.userById in Hu. apply find_some in Hu as [? Hq].
    split; [assumption | now apply String.eqb_eq]. }
  destruct Hin as [Hin Huid]. clear Hown Hid Hu. subst id.
  rewrite (find_unique _ (users w) u Hin).
  - cbn [fmap option_fmap option_map]. rewrite String.eqb_refl.
    cbn [Prisma.applyUpdate User.password User.id User.username UserUpdate.password
         UserUpdate.username default from_option Datatypes.id].
    rewrite Hcmp. eexists. split; [reflexivity|]. now split.
  - rewrite String.eqb_refl. cbn. apply String.eqb_refl.
  - intros y Hy Hg. apply Huniq; [exact Hy|].
    destruct (String.eqb (User.id y) (User.id u)); cbn in Hg; now apply String.eqb_eq in Hg.
Qed.

(** Alice sets the password "hunter22" and logs in with it. *)
Lemma password_change_then_login_witness :
  exists u',
    fst (authRoutes.postLogin Sample.bcrypt_compare Sample.jwt_sign Sample.env
           (Cases.credentials "alice" "hunter22")
           (snd (userRoutes.putUser Sample.isEmail Sample.bcrypt_hash Sample.env
                   Sample.newPassword Sample.world)))
    = mkResponse 200 (authController.session "jwt.u-alice.alice" u')
    /\ User.id u' = "u-alice"
    /\ User.password u' = "$2a$10$salthunter22".
Proof.
  destruct (password_change_then_login Sample.isEmail Sample.bcrypt_hash
              Sample.bcrypt_compare Sample.jwt_sign Sample.env Sample.env
              Sample.newPassword (Cases.credentials "alice" "hunter22")
              Sample.world "u-alice" Sample.alice "hunter22") as (_ & H);
    try reflexivity; try discriminate; [|exact H].
  intros o [<- | [<- | []]]; [reflexivity | discriminate].
Defined.

(** ** The profile route *)

Lemma userById_filtered id rows :
  Prisma.userById id
    (List.filter (fun u => negb (String.eqb (User.id u) id)) rows) = None.
Proof.
  unfold Prisma.userById.
  destruct (List.find _ _) as [a|] eqn:Hf; [|reflexivity].
  apply find_some in Hf as [Hin Heq]. apply filter_In in Hin as [_ Hne].
  rewrite Heq in Hne. discriminate.
Qed.

(** X19.  Register, then ask for the profile: with the identity of the
    account a registration created, [GET /users/me] is answered 200 with
    exactly the identifier, username, email and the two timestamps of that
    account. *)
Theorem register_then_profile :
  forall isEmail bcrypt_hash jwt_sign env env' req req' w,
    Req.errors (Validator.runAll (authRoutes.registerChains isEmail) req) = [] ->
    (forall u, In u (users w) -> taken env req u = false) ->
    userId (Req.user req') = dbUuid env ->
    fst (userRoutes.getMe env' req'
           (snd (authRoutes.postRegister isEmail bcrypt_hash jwt_sign env req w)))
    = mkResponse 200
        (JObj [("id", JStr (dbUuid env));
               ("username", JStr (Validator.toString (Req.body req !! "username")));
               ("email", jopt (JS.orNull (Req.body req !! "email")));
               ("createdAt", JNum (now env));
               ("updatedAt", JNum (now env))]).
Proof.
  intros isEmail bcrypt_hash jwt_sign env env' req req' w Herr Hfree Hme.
  rewrite (postRegister_valid isEmail bcrypt_hash jwt_sign env req w Herr).
  rewrite (existsb_false _ _ Hfree). cbn [snd].
  unfold userRoutes.getMe, userController.getCurrentUser, Prisma.user_findUnique_id,
    Prisma.userById.
  monad_unfold. rewrite Hme.
  rewrite (find_app_fresh _ (users w) (newAccount bcrypt_hash env req)).
  - reflexivity.
  - intros a Ha. specialize (Hfree a Ha). unfold taken in Hfree.
    apply orb_false_iff in Hfree as [Hfree _]. now apply orb_false_iff in Hfree as [? _].
  - cbn. apply String.eqb_refl.
Qed.

Lemma register_then_profile_witness :
  fst (userRoutes.getMe Sample.env (Cases.as_ (mkAuthUser "a2" "carol"))
         (snd (authRoutes.postRegister Sample.isEmail Sample.bcrypt_hash Sample.jwt_sign
                 Sample.env (Cases.credentials "carol" "secret1") Sample.world)))
  = mkResponse 200
      (JObj [("id", JStr "a2"); ("username", JStr "carol"); ("email", JNull);
             ("createdAt", JNum 100); ("updatedAt", JNum 100)]).
Proof.
  apply (register_then_profile Sample.isEmail Sample.bcrypt_hash Sample.jwt_sign
           Sample.env Sample.env (Cases.credentials "carol" "secret1")
           (Cases.as_ (mkAuthUser "a2" "carol")) Sample.world).
  - reflexivity.
  - intros u [<- | [<- | []]]; reflexivity.
  - reflexivity.
Defined.

Lemma none_owned_after_cascade id cat rows :
  List.filter (Prisma.matchesWhere id cat)
    (List.filter (fun a => negb (String.eqb (AudioFile.userId a) id)) rows) = [].
Proof.
  induction rows as [|a l IH]; [reflexivity|].
  cbn [List.filter]. destruct (String.eqb (AudioFile.userId a) id) eqn:Ha; cbn [negb].
  - exact IH.
  - cbn [List.filter]. unfold Prisma.matchesWhere at 1. rewrite Ha. cbn [andb]. exact IH.
Qed.

(** X20.  Delete the account, then use its token: once an account has
    deleted itself, [GET /users/me] with that identity is answered 404
    "User not found", and the listing with that identity is empty. *)
Theorem deleted_account_is_gone :
  forall env env1 env2 req reqM reqL w id u,
    Req.params req !! "id" = Some id ->
    id = userId (Req.user req) ->
    In u (users w) -> User.id u = id ->
    userId (Req.user reqM) = id ->
    userId (Req.user reqL) = id ->
    let w1 := snd (userRoutes.deleteUser env req w) in
    fst (userRoutes.getMe env1 reqM w1) = mkResponse 404 (jerror "User not found")
    /\ fst (audioRoutes.getList env2 reqL w1) = mkResponse 200 (JArr []).
Proof.
  intros env env1 env2 req reqM reqL w id u Hid Hown Hin Hu HM HL w1. subst w1.
  assert (Hw : snd (userRoutes.deleteUser env req w)
               = mkWorld
                   (List.filter (fun u => negb (String.eqb (User.id u) id)) (users w))
                   (List.filter (fun a => negb (String.eqb (AudioFile.userId a) id))
                                (audioFiles w))
                   (bucket w) (calls w ++ [DbUserDelete id])).
  { unfold userRoutes.deleteUser, userController.deleteUser, Prisma.user_delete.
    rewrite Hid. cbn [default from_option Datatypes.id]. unfold JS.seq.
    rewrite <- Hown, String.eqb_refl. cbn [negb]. monad_unfold.
    assert (Hex : existsb (fun u => String.eqb (User.id u) id) (users w) = true).
    { apply existsb_exists. exists u. split; [exact Hin | now apply String.eqb_eq]. }
    now rewrite Hex. }
  rewrite Hw. split.
  - unfold userRoutes.getMe, userController.getCurrentUser, Prisma.user_findUnique_id.
    monad_unfold. rewrite HM. now rewrite userById_filtered.
  - rewrite getList_eval. cbn [fst audioFiles]. rewrite HL.
    now rewrite none_owned_after_cascade.
Qed.

Lemma deleted_account_is_gone_witness :
  fst (userRoutes.getMe Sample.env (Cases.as_ Sample.asAlice)
         (snd (userRoutes.deleteUser Sample.env (Sample.byId Sample.asAlice "u-alice")
                 Sample.world)))
  = mkResponse 404 (jerror "User not found").
Proof.
  apply (deleted_account_is_gone Sample.env Sample.env Sample.env
           (Sample.byId Sample.asAlice "u-alice") (Cases.as_ Sample.asAlice)
           (Cases.as_ Sample.asAlice) Sample.world "u-alice" Sample.alice);
    try reflexivity.
  cbn. auto.
Defined.

(** ** The client's checks against the server's *)

Lemma arrayIncludes_3 a b c x :
  JS.arrayIncludes [a; b; c] x = true <-> x = a \/ x = b \/ x = c.
Proof.
  unfold JS.arrayIncludes. cbn [existsb].
  rewrite !orb_true_iff, !String.eqb_eq. intuition discriminate.
Qed.

(** X21.  The file checks of the upload page against those of the server:
    a file of type ["audio/mpeg"] or ["audio/mp4"] and of less than 50 MB
    passes both; a file that passes both has one of these two types and is
    at most 50 MB.  A file of type ["audio/mp3"] that the page keeps is
    answered 400 "Invalid file type" by the server. *)
Theorem client_and_server_file_checks :
  forall env who fields f w,
    let req := Req.mk who ∅ ∅ fields (Some f) [] in
    ((mimetype f = "audio/mpeg" \/ mimetype f = "audio/mp4")
     /\ size f < 50 * 1024 * 1024 ->
     UploadPage.fileError f = None /\ multerConfig.single req = inr req)
    /\ (UploadPage.fileError f = None /\ multerConfig.single req = inr req ->
        (mimetype f = "audio/mpeg" \/ mimetype f = "audio/mp4")
        /\ size f <= 50 * 1024 * 1024)
    /\ (UploadPage.fileError f = None ->
        mimetype f = "audio/mp3" ->
        audioRoutes.postUpload env req w
        = (mkResponse 400
             (JObj [("error", JStr "Invalid file type");
                    ("details", JStr "Invalid file type. Only audio files are allowed.")]),
           w)).
Proof.
  intros env who fields f w req. subst req.
  unfold UploadPage.fileError, audioRoutes.postUpload, multerConfig.single,
    multerConfig.fileFilter, UploadPage.validAudioTypes, multerConfig.allowedMimeTypes.
  cbn [Req.file].
  change UploadPage.maxSize with (50 * 1024 * 1024).
  change multerConfig.fileSizeLimit with (50 * 1024 * 1024).
  split; [|split].
  - intros [Ht Hz].
    replace (Z.ltb (50 * 1024 * 1024) (size f)) with false
      by (symmetry; apply Z.ltb_ge; lia).
    replace (Z.leb (50 * 1024 * 1024) (size f)) with false
      by (symmetry; apply Z.leb_gt; exact Hz).
    destruct Ht as [-> | ->]; split; reflexivity.
  - intros [Hclient Hserver].
    destruct (JS.arrayIncludes ["audio/mpeg"; "audio/mp3"; "audio/mp4"] (mimetype f))
      eqn:Hc; [|discriminate].
    destruct (JS.arrayIncludes ["audio/avi"; "audio/mp4"; "audio/mpeg"] (mimetype f))
      eqn:Hs; [|discriminate].
    cbn [negb] in Hclient.
    destruct (Z.ltb_spec (50 * 1024 * 1024) (size f)) as [|Hz]; [discriminate|].
    split; [|exact Hz].
    apply arrayIncludes_3 in Hc, Hs.
    destruct Hc as [Hm | [Hm | Hm]]; auto.
    rewrite Hm in Hs. destruct Hs as [? | [? | ?]]; discriminate.
  - intros _ ->. reflexivity.
Qed.

Lemma client_and_server_file_checks_witness :
  UploadPage.fileError Sample.mp3 = None
  /\ multerConfig.single (Req.mk Sample.asAlice ∅ ∅ ∅ (Some Sample.mp3) [])
     = inr (Req.mk Sample.asAlice ∅ ∅ ∅ (Some Sample.mp3) []).
Proof.
  apply (client_and_server_file_checks Sample.env Sample.asAlice ∅ Sample.mp3
           Sample.world).
  split; [left; reflexivity | reflexivity].
Defined.
